(** * The save-data service: a shallow embedding and its properties

    The repository holds two programs for the same endpoint:
    - [main.go], the original handler with its hard-coded storage dispatch;
    - the refactored solution (strategy, factory, validator, service, handler
      and process-owned database connection) reproduced in [README.md].

    Both are embedded below as functions over an explicit world (file system,
    standard output, heap of shared connections).  The Go standard library
    pieces they call ([encoding/json], [encoding/base64], [net/http], [os],
    [fmt]) are modelled first. *)

From Stdlib Require Import ZArith NArith Ascii String List Lia Bool.
From stdpp Require Import base gmap strings list pretty.

(** ** Go values *)

(** A Go [string] and a Go [[]byte] are both finite sequences of octets, so
    both are embedded as [string] (a list of 8-bit [ascii]); the conversions
    [string(b)] and [[]byte(s)] are the identity.  A nil slice and an empty
    slice are not distinguished: the programs only ever take [len] of them. *)
Abbreviation bytes := string.

Definition dquote : ascii := "034"%char.
Definition backslash : ascii := "092"%char.
Definition dq : string := String dquote EmptyString.
Definition nl : string := String "010"%char EmptyString.

(** [quoted s] is [s] between double quotes, for writing JSON text. *)
Definition quoted (s : string) : string := dq +:+ s +:+ dq.

(** Go's [error] values as these programs build them: a plain message
    ([errors.New], [fmt.Errorf] without [%w], and the library errors) or a
    message wrapping another error ([fmt.Errorf] with a trailing [%w]). *)
Inductive error : Type :=
| errorString (text : string)
| wrapError (msg : string) (err : error).

Definition Error (e : error) : string :=
  match e with
  | errorString text => text
  | wrapError msg _ => msg
  end.

Definition Unwrap (e : error) : option error :=
  match e with
  | errorString _ => None
  | wrapError _ err => Some err
  end.

(** [fmt.Errorf(prefix + "%w", err)]. *)
Definition Errorf_w (prefix : string) (err : error) : error :=
  wrapError (prefix +:+ Error err) err.

(** The request body as both programs decode it: main.go names the struct
    [Request], the solution names it [SaveRequest]; the fields and their JSON
    tags ([data], [storage_type]) are the same. *)
Record SaveRequest : Type := mkSaveRequest {
  Data : bytes;
  StorageType : string }.

(** ** encoding/base64, [StdEncoding.Decode] *)

Module base64.

Definition decodeMap (c : ascii) : option N :=
  let n := N_of_ascii c in
  if (65 <=? n)%N && (n <=? 90)%N then Some (n - 65)%N
  else if (97 <=? n)%N && (n <=? 122)%N then Some (n - 71)%N
  else if (48 <=? n)%N && (n <=? 57)%N then Some (n + 4)%N
  else if (n =? 43)%N then Some 62%N
  else if (n =? 47)%N then Some 63%N
  else None.

Definition padChar : ascii := "="%char.

Definition is_newline (c : ascii) : bool :=
  Ascii.eqb c "010"%char || Ascii.eqb c "013"%char.

(** The 24-bit group assembled from four sextets, cut into octets. *)
Definition group (x y z t : N) : N :=
  N.lor (N.lor (N.shiftl x 18) (N.shiftl y 12)) (N.lor (N.shiftl z 6) t).

Definition octet (v : N) (shift : N) : ascii :=
  ascii_of_N (N.land (N.shiftr v shift) 255).

(** [decodeQuantum], run over an input from which the ignored line breaks
    have been removed: full quanta of four alphabet characters, and a last
    quantum that may end in one or two padding characters.  Anything else is
    Go's [CorruptInputError]. *)
Fixpoint decode_quanta (src : list ascii) : option (list ascii) :=
  match src with
  | [] => Some []
  | a :: b :: c :: d :: rest =>
    match decodeMap a, decodeMap b with
    | Some x, Some y =>
      match decodeMap c, decodeMap d with
      | Some z, Some t =>
        let v := group x y z t in
        match decode_quanta rest with
        | Some out => Some (octet v 16 :: octet v 8 :: octet v 0 :: out)
        | None => None
        end
      | Some z, None =>
        let v := group x y z 0 in
        if Ascii.eqb d padChar && bool_decide (rest = [])
        then Some [octet v 16; octet v 8] else None
      | None, _ =>
        let v := group x y 0 0 in
        if Ascii.eqb c padChar && Ascii.eqb d padChar && bool_decide (rest = [])
        then Some [octet v 16] else None
      end
    | _, _ => None
    end
  | _ => None
  end.

Definition Decode (src : string) : option bytes :=
  let significant := filter (λ c, negb (is_newline c)) (list_ascii_of_string src) in
  option_map string_of_list_ascii (decode_quanta significant).

End base64.

(** ** unicode/utf8 *)

Module utf8.

Definition byte_in (lo hi : N) (c : ascii) : bool :=
  let n := N_of_ascii c in (lo <=? n)%N && (n <=? hi)%N.

Definition is_cont (c : ascii) : bool := byte_in 128 191 c.

(** Width of the well-formed UTF-8 sequence that starts [c :: rest], or [0]
    when [DecodeRune] would report [RuneError] with width one. *)
Definition valid_width (c : ascii) (rest : string) : nat :=
  if byte_in 0 127 c then 1
  else match rest with
  | String c1 rest1 =>
    if byte_in 194 223 c then (if is_cont c1 then 2 else 0)
    else match rest1 with
    | String c2 rest2 =>
      let second3 :=
        if byte_in 224 224 c then byte_in 160 191 c1
        else if byte_in 237 237 c then byte_in 128 159 c1
        else if byte_in 225 239 c then is_cont c1
        else false in
      if second3 then (if is_cont c2 then 3 else 0)
      else match rest2 with
      | String c3 _ =>
        let second4 :=
          if byte_in 240 240 c then byte_in 144 191 c1
          else if byte_in 244 244 c then byte_in 128 143 c1
          else if byte_in 241 243 c then is_cont c1
          else false in
        if second4 && is_cont c2 && is_cont c3 then 4 else 0
      | EmptyString => 0
      end
    | EmptyString => 0
    end
  | EmptyString => 0
  end.

Definition RuneError : N := 65533.

Definition cont_byte (r shift : N) : ascii :=
  ascii_of_N (N.lor 128 (N.land (N.shiftr r shift) 63)).

(** [utf8.AppendRune]: surrogates and out-of-range runes are written as
    [RuneError]. *)
Definition encode (r : N) : string :=
  let r := if ((55296 <=? r)%N && (r <=? 57343)%N) || (1114111 <? r)%N
           then RuneError else r in
  if (r <=? 127)%N then String (ascii_of_N r) EmptyString
  else if (r <=? 2047)%N then
    String (ascii_of_N (N.lor 192 (N.shiftr r 6))) (String (cont_byte r 0) EmptyString)
  else if (r <=? 65535)%N then
    String (ascii_of_N (N.lor 224 (N.shiftr r 12)))
      (String (cont_byte r 6) (String (cont_byte r 0) EmptyString))
  else
    String (ascii_of_N (N.lor 240 (N.shiftr r 18)))
      (String (cont_byte r 12) (String (cont_byte r 6) (String (cont_byte r 0) EmptyString))).

End utf8.

(** ** encoding/json, [Unmarshal] into a two-field struct *)

Module json.

#[warnings="-register-all"]
Inductive value : Type :=
| JNull
| JBool (b : bool)
| JNumber (literal : string)
| JString (s : string)
| JArray (elems : list value)
| JObject (members : list (string * value)).

Definition is_space (c : ascii) : bool :=
  Ascii.eqb c " "%char || Ascii.eqb c "009"%char
  || Ascii.eqb c "010"%char || Ascii.eqb c "013"%char.

Fixpoint skip_space (s : string) : string :=
  match s with
  | String c rest => if is_space c then skip_space rest else s
  | EmptyString => s
  end.

Definition is_digit (c : ascii) : bool := utf8.byte_in 48 57 c.

Definition hexval (c : ascii) : option N :=
  let n := N_of_ascii c in
  if is_digit c then Some (n - 48)%N
  else if utf8.byte_in 97 102 c then Some (n - 87)%N
  else if utf8.byte_in 65 70 c then Some (n - 55)%N
  else None.

(** [getu4] on the four characters that follow a backslash-u. *)
Definition hex4 (a b c d : ascii) : option N :=
  match hexval a, hexval b, hexval c, hexval d with
  | Some x, Some y, Some z, Some t => Some (((x * 16 + y) * 16 + z) * 16 + t)%N
  | _, _, _, _ => None
  end.

(** The low half of a surrogate pair, when [s] starts with an escape that
    denotes one. *)
Definition low_surrogate (s : string) : option N :=
  match s with
  | String b (String u (String h1 (String h2 (String h3 (String h4 _))))) =>
    if Ascii.eqb b backslash && Ascii.eqb u "u"%char then
      match hex4 h1 h2 h3 h4 with
      | Some r => if (56320 <=? r)%N && (r <=? 57343)%N then Some r else None
      | None => None
      end
    else None
  | _ => None
  end.

Definition simple_escape (c : ascii) : option ascii :=
  if Ascii.eqb c dquote then Some dquote
  else if Ascii.eqb c backslash then Some backslash
  else if Ascii.eqb c "/"%char then Some "/"%char
  else if Ascii.eqb c "b"%char then Some "008"%char
  else if Ascii.eqb c "f"%char then Some "012"%char
  else if Ascii.eqb c "n"%char then Some "010"%char
  else if Ascii.eqb c "r"%char then Some "013"%char
  else if Ascii.eqb c "t"%char then Some "009"%char
  else None.

(** The scanner's string state and [unquote] in one pass, started after the
    opening quote: the unquoted text and the input left after the closing
    quote.  [skip] counts the input characters already accounted for (the rest
    of an escape, or the continuation bytes of a rune that was checked), and
    [copy] says whether they are copied to the output. *)
Fixpoint scan_string (skip : nat) (copy : bool) (s : string) : option (string * string) :=
  match s with
  | EmptyString => None
  | String c rest =>
    match skip with
    | S skip' =>
      match scan_string skip' copy rest with
      | Some (out, tail) => Some (if copy then String c out else out, tail)
      | None => None
      end
    | O =>
      if Ascii.eqb c dquote then Some (EmptyString, rest)
      else if utf8.byte_in 0 31 c then None
      else if Ascii.eqb c backslash then
        match rest with
        | String e rest1 =>
          if Ascii.eqb e "u"%char then
            match rest1 with
            | String h1 (String h2 (String h3 (String h4 rest5))) =>
              match hex4 h1 h2 h3 h4 with
              | Some r =>
                if (55296 <=? r)%N && (r <=? 57343)%N then
                  match (if (r <? 56320)%N then low_surrogate rest5 else None) with
                  | Some r2 =>
                    let rune := ((r - 55296) * 1024 + (r2 - 56320) + 65536)%N in
                    match scan_string 11 false rest with
                    | Some (out, tail) => Some (utf8.encode rune +:+ out, tail)
                    | None => None
                    end
                  | None =>
                    match scan_string 5 false rest with
                    | Some (out, tail) => Some (utf8.encode utf8.RuneError +:+ out, tail)
                    | None => None
                    end
                  end
                else
                  match scan_string 5 false rest with
                  | Some (out, tail) => Some (utf8.encode r +:+ out, tail)
                  | None => None
                  end
              | None => None
              end
            | _ => None
            end
          else
            match simple_escape e with
            | Some x =>
              match scan_string 1 false rest with
              | Some (out, tail) => Some (String x out, tail)
              | None => None
              end
            | None => None
            end
        | EmptyString => None
        end
      else
        match utf8.valid_width c rest with
        | O =>
          match scan_string 0 true rest with
          | Some (out, tail) => Some (utf8.encode utf8.RuneError +:+ out, tail)
          | None => None
          end
        | S n =>
          match scan_string n true rest with
          | Some (out, tail) => Some (String c out, tail)
          | None => None
          end
        end
    end
  end.

Fixpoint take_digits (s : string) : string * string :=
  match s with
  | String c rest =>
    if is_digit c then let '(ds, tail) := take_digits rest in (String c ds, tail)
    else (EmptyString, s)
  | EmptyString => (EmptyString, s)
  end.

(** A number literal: sign, integer part without leading zero, optional
    fraction, optional exponent. *)
Definition scan_number (s : string) : option (string * string) :=
  let '(sign, s1) :=
    match s with
    | String c rest => if Ascii.eqb c "-"%char then ("-", rest) else (EmptyString, s)
    | EmptyString => (EmptyString, s)
    end in
  let int_part :=
    match s1 with
    | String c rest =>
      if Ascii.eqb c "0"%char then Some ("0", rest)
      else if is_digit c then Some (take_digits s1)
      else None
    | EmptyString => None
    end in
  match int_part with
  | None => None
  | Some (ip, s2) =>
    let frac :=
      match s2 with
      | String c rest =>
        if Ascii.eqb c "."%char then
          match take_digits rest with
          | (EmptyString, _) => None
          | (ds, tail) => Some ("." +:+ ds, tail)
          end
        else Some (EmptyString, s2)
      | EmptyString => Some (EmptyString, s2)
      end in
    match frac with
    | None => None
    | Some (fp, s3) =>
      let exp :=
        match s3 with
        | String c rest =>
          if Ascii.eqb c "e"%char || Ascii.eqb c "E"%char then
            let '(esign, rest') :=
              match rest with
              | String g rest1 =>
                if Ascii.eqb g "+"%char || Ascii.eqb g "-"%char
                then (String g EmptyString, rest1) else (EmptyString, rest)
              | EmptyString => (EmptyString, rest)
              end in
            match take_digits rest' with
            | (EmptyString, _) => None
            | (ds, tail) => Some (String c esign +:+ ds, tail)
            end
          else Some (EmptyString, s3)
        | EmptyString => Some (EmptyString, s3)
        end in
      match exp with
      | None => None
      | Some (ep, s4) => Some (sign +:+ ip +:+ fp +:+ ep, s4)
      end
    end
  end.

Fixpoint strip_prefix (p s : string) : option string :=
  match p, s with
  | EmptyString, _ => Some s
  | String a p', String b s' => if Ascii.eqb a b then strip_prefix p' s' else None
  | String _ _, EmptyString => None
  end.

Definition maxNestingDepth : N := 10000.

(** The value grammar.  [depth] is the number of enclosing arrays and
    objects; [fuel] bounds the recursion and is consumed once per value, per
    object member and per array element. *)
Fixpoint scan_value (fuel : nat) (depth : N) (s : string) : option (value * string) :=
  match fuel with
  | O => None
  | S fuel' =>
    match skip_space s with
    | EmptyString => None
    | String c rest =>
      if Ascii.eqb c "{"%char then
        if (maxNestingDepth <=? depth)%N then None
        else match skip_space rest with
        | String c' rest' =>
          if Ascii.eqb c' "}"%char then Some (JObject [], rest')
          else scan_members fuel' (depth + 1)%N [] rest
        | EmptyString => None
        end
      else if Ascii.eqb c "["%char then
        if (maxNestingDepth <=? depth)%N then None
        else match skip_space rest with
        | String c' rest' =>
          if Ascii.eqb c' "]"%char then Some (JArray [], rest')
          else scan_elements fuel' (depth + 1)%N [] rest
        | EmptyString => None
        end
      else if Ascii.eqb c dquote then
        match scan_string 0 true rest with
        | Some (str, tail) => Some (JString str, tail)
        | None => None
        end
      else if Ascii.eqb c "-"%char || is_digit c then
        match scan_number (String c rest) with
        | Some (lit, tail) => Some (JNumber lit, tail)
        | None => None
        end
      else match strip_prefix "true" (String c rest) with
      | Some tail => Some (JBool true, tail)
      | None =>
        match strip_prefix "false" (String c rest) with
        | Some tail => Some (JBool false, tail)
        | None =>
          match strip_prefix "null" (String c rest) with
          | Some tail => Some (JNull, tail)
          | None => None
          end
        end
      end
    end
  end
with scan_members (fuel : nat) (depth : N) (acc : list (string * value)) (s : string)
  : option (value * string) :=
  match fuel with
  | O => None
  | S fuel' =>
    match skip_space s with
    | String q rest =>
      if Ascii.eqb q dquote then
        match scan_string 0 true rest with
        | Some (key, s1) =>
          match skip_space s1 with
          | String colon s2 =>
            if Ascii.eqb colon ":"%char then
              match scan_value fuel' depth s2 with
              | Some (v, s3) =>
                match skip_space s3 with
                | String sep s4 =>
                  if Ascii.eqb sep ","%char then scan_members fuel' depth (acc ++ [(key, v)]) s4
                  else if Ascii.eqb sep "}"%char then Some (JObject (acc ++ [(key, v)]), s4)
                  else None
                | EmptyString => None
                end
              | None => None
              end
            else None
          | EmptyString => None
          end
        | None => None
        end
      else None
    | EmptyString => None
    end
  end
with scan_elements (fuel : nat) (depth : N) (acc : list value) (s : string)
  : option (value * string) :=
  match fuel with
  | O => None
  | S fuel' =>
    match scan_value fuel' depth s with
    | Some (v, s1) =>
      match skip_space s1 with
      | String sep s2 =>
        if Ascii.eqb sep ","%char then scan_elements fuel' depth (acc ++ [v]) s2
        else if Ascii.eqb sep "]"%char then Some (JArray (acc ++ [v]), s2)
        else None
      | EmptyString => None
      end
    | None => None
    end
  end.

(** [checkValid]: one value, then only white space.  Every recursive call of
    the scanner but the one for the first array element has consumed input,
    so twice the input length is fuel enough. *)
Definition parse (data : string) : option value :=
  match scan_value (2 * String.length data + 2) 0 data with
  | Some (v, tail) =>
    match skip_space tail with
    | EmptyString => Some v
    | String _ _ => None
    end
  | None => None
  end.

(** *** Storing a parsed value into the struct *)

Inductive field : Type := FieldData | FieldStorageType.

(** [foldName]: ASCII letters are upper-cased, and the two runes whose simple
    case folding reaches an ASCII letter (U+017F and U+212A) are replaced by
    it.  Every other rune folds to a rune outside ASCII and is left in place,
    which cannot change a comparison with the ASCII field names. *)
Fixpoint foldName (s : string) : string :=
  match s with
  | EmptyString => EmptyString
  | String c rest =>
    if utf8.byte_in 97 122 c then String (ascii_of_N (N_of_ascii c - 32)) (foldName rest)
    else match rest with
    | String c1 rest1 =>
      if Ascii.eqb c "197"%char && Ascii.eqb c1 "191"%char then String "S"%char (foldName rest1)
      else match rest1 with
      | String c2 rest2 =>
        if Ascii.eqb c "226"%char && Ascii.eqb c1 "132"%char && Ascii.eqb c2 "170"%char
        then String "K"%char (foldName rest2)
        else String c (foldName rest)
      | EmptyString => String c (foldName rest)
      end
    | EmptyString => String c EmptyString
    end
  end.

(** The field an object key selects: the exact name first, then the folded
    name. *)
Definition lookup_field (key : string) : option field :=
  if String.eqb key "data" then Some FieldData
  else if String.eqb key "storage_type" then Some FieldStorageType
  else
    let folded := foldName key in
    if String.eqb folded "DATA" then Some FieldData
    else if String.eqb folded "STORAGE_TYPE" then Some FieldStorageType
    else None.

(** [UnmarshalTypeError].  Neither program shows the text of a decoding
    error, so the struct and field names Go adds to it are left out. *)
Definition UnmarshalTypeError (what ty : string) : error :=
  errorString ("json: cannot unmarshal " +:+ what +:+ " into Go value of type " +:+ ty).

Definition SyntaxError : error := errorString "json: syntax error".

Definition CorruptInputError : error := errorString "illegal base64 data".

Definition kind_name (v : value) : string :=
  match v with
  | JNull => "null"
  | JBool _ => "bool"
  | JNumber _ => "number"
  | JString _ => "string"
  | JArray _ => "array"
  | JObject _ => "object"
  end.

(** The decoder keeps the first error and goes on decoding. *)
Definition saveError (saved : option error) (e : error) : option error :=
  match saved with
  | Some _ => saved
  | None => Some e
  end.

Fixpoint digits_value (acc : N) (s : string) : option N :=
  match s with
  | EmptyString => Some acc
  | String c rest =>
    if is_digit c then digits_value (acc * 10 + (N_of_ascii c - 48))%N rest else None
  end.

(** [strconv.ParseUint] followed by the overflow check for [uint8]. *)
Definition parse_uint8 (literal : string) : option ascii :=
  match literal with
  | EmptyString => None
  | String _ _ =>
    match digits_value 0 literal with
    | Some n => if (n <=? 255)%N then Some (ascii_of_N n) else None
    | None => None
    end
  end.

(** A JSON array stored into a byte slice, element by element.  [old] is what
    the slice held at the same indexes: a null element leaves its slot alone,
    as does an element that is no [uint8] (which is also an error).  Slots
    past the old length read as zero, which is what a slice grown by the
    decoder holds. *)
Fixpoint store_elements (old : list ascii) (elems : list value) (saved : option error)
  : list ascii * option error :=
  match elems with
  | [] => ([], saved)
  | e :: elems' =>
    let slot := hd zero old in
    let '(b, saved1) :=
      match e with
      | JNull => (slot, saved)
      | JNumber literal =>
        match parse_uint8 literal with
        | Some b => (b, saved)
        | None => (slot, saveError saved (UnmarshalTypeError ("number " +:+ literal) "uint8"))
        end
      | _ => (slot, saveError saved (UnmarshalTypeError (kind_name e) "uint8"))
      end in
    let '(bs, saved2) := store_elements (tl old) elems' saved1 in
    (b :: bs, saved2)
  end.

Definition store_Data (v : value) (req : SaveRequest) (saved : option error)
  : SaveRequest * option error :=
  match v with
  | JNull => (mkSaveRequest EmptyString (StorageType req), saved)
  | JString s =>
    match base64.Decode s with
    | Some b => (mkSaveRequest b (StorageType req), saved)
    | None => (req, saveError saved CorruptInputError)
    end
  | JArray elems =>
    let '(bs, saved') := store_elements (list_ascii_of_string (Data req)) elems saved in
    (mkSaveRequest (string_of_list_ascii bs) (StorageType req), saved')
  | _ => (req, saveError saved (UnmarshalTypeError (kind_name v) "[]uint8"))
  end.

Definition store_StorageType (v : value) (req : SaveRequest) (saved : option error)
  : SaveRequest * option error :=
  match v with
  | JNull => (req, saved)
  | JString s => (mkSaveRequest (Data req) s, saved)
  | _ => (req, saveError saved (UnmarshalTypeError (kind_name v) "string"))
  end.

(** The members of an object in source order; a key that names no field is
    skipped, a repeated key stores again. *)
Fixpoint store_members (members : list (string * value)) (req : SaveRequest)
  (saved : option error) : SaveRequest * option error :=
  match members with
  | [] => (req, saved)
  | (key, v) :: members' =>
    let '(req1, saved1) :=
      match lookup_field key with
      | Some FieldData => store_Data v req saved
      | Some FieldStorageType => store_StorageType v req saved
      | None => (req, saved)
      end in
    store_members members' req1 saved1
  end.

Definition store (v : value) (req : SaveRequest) : SaveRequest * option error :=
  match v with
  | JObject members => store_members members req None
  | JNull => (req, None)
  | _ => (req, Some (UnmarshalTypeError (kind_name v) "SaveRequest"))
  end.

(** [json.Unmarshal(data, &req)]: the whole input is checked first, then
    decoded; the struct after the call and the error. *)
Definition Unmarshal (data : bytes) (req : SaveRequest) : SaveRequest * option error :=
  match parse data with
  | None => (req, Some SyntaxError)
  | Some v => store v req
  end.

End json.

(** ** The world the programs run in *)

(** A pointer to a [DatabaseConnection] is nil or a heap location. *)
Definition loc : Type := nat.
Definition ptr : Type := option loc.

Record DatabaseConnection : Type := mkDatabaseConnection {
  Host : string;
  Port : Z;
  Username : string;
  Password : string;
  DBName : string;
  connected : bool }.

(** - [files]: the content of every file that exists;
    - [create_fault]: the paths [os.Create] refuses, with the reason;
    - [write_fault]: for a path, how many bytes one write to it transfers
      before the device fails, with the reason;
    - [stdout]: what has been printed, one entry per call;
    - [heap]: the connections allocated so far. *)
Record World : Type := mkWorld {
  files : gmap string bytes;
  create_fault : gmap string string;
  write_fault : gmap string (nat * string);
  stdout : list string;
  heap : gmap loc DatabaseConnection }.

Definition set_files (f : gmap string bytes → gmap string bytes) (w : World) : World :=
  mkWorld (f (files w)) (create_fault w) (write_fault w) (stdout w) (heap w).

Definition set_stdout (f : list string → list string) (w : World) : World :=
  mkWorld (files w) (create_fault w) (write_fault w) (f (stdout w)) (heap w).

Definition set_heap (f : gmap loc DatabaseConnection → gmap loc DatabaseConnection)
  (w : World) : World :=
  mkWorld (files w) (create_fault w) (write_fault w) (stdout w) (f (heap w)).

(** A call returns a value or panics; either way it leaves a world. *)
Inductive result (A : Type) : Type :=
| Ok (a : A)
| Panic (msg : string).
Arguments Ok {A} a.
Arguments Panic {A} msg.

Definition M (A : Type) : Type := World → result A * World.

Definition ret {A} (a : A) : M A := λ w, (Ok a, w).

Definition bind {A B} (c : M A) (k : A → M B) : M B :=
  λ w, match c w with
       | (Ok a, w') => k a w'
       | (Panic msg, w') => (Panic msg, w')
       end.

Notation "x <- c ;; k" := (bind c (λ x, k))
  (at level 100, c at next level, right associativity).
Notation "c ;; k" := (bind c (λ _, k))
  (at level 100, right associativity).

(** *** fmt *)

Definition Printf (text : string) : M unit := λ w, (Ok tt, set_stdout (λ out, out ++ [text]) w).

Definition Println (text : string) : M unit := Printf (text +:+ nl).

(** *** os *)

(** [*fs.PathError]. *)
Definition PathError (op path reason : string) : error :=
  errorString (op +:+ " " +:+ path +:+ ": " +:+ reason).

(** [os.Create]: the file is created or truncated; the handle is the path.
    Closing a handle (the deferred [Close] of the programs) changes nothing
    the world records and is left out. *)
Definition Create (name : string) : M (string + error) :=
  λ w, match create_fault w !! name with
       | Some reason => (Ok (inr (PathError "open" name reason)), w)
       | None => (Ok (inl name), set_files (insert name EmptyString) w)
       end.

(** [Write] on an [os.File], at the end of the file: the count written and
    the error of a short write. *)
Definition File_Write (f : string) (data : bytes) : M (nat * option error) :=
  λ w, let old := default EmptyString (files w !! f) in
       match write_fault w !! f with
       | Some (room, reason) =>
         if decide (String.length data ≤ room)
         then (Ok (String.length data, None), set_files (insert f (old +:+ data)) w)
         else (Ok (room, Some (PathError "write" f reason)),
               set_files (insert f (old +:+ String.substring 0 room data)) w)
       | None => (Ok (String.length data, None), set_files (insert f (old +:+ data)) w)
       end.

(** *** The heap *)

Definition nil_dereference : string :=
  "runtime error: invalid memory address or nil pointer dereference".

Definition load (p : ptr) : M DatabaseConnection :=
  λ w, match p with
       | Some l =>
         match heap w !! l with
         | Some c => (Ok c, w)
         | None => (Panic nil_dereference, w)
         end
       | None => (Panic nil_dereference, w)
       end.

Definition alloc (c : DatabaseConnection) : M ptr :=
  λ w, let l := fresh (dom (heap w)) in (Ok (Some l), set_heap (insert l c) w).

(** A field update through a pointer. *)
Definition modify (p : ptr) (f : DatabaseConnection → DatabaseConnection) : M unit :=
  c <- load p ;;
  λ w, match p with
       | Some l => (Ok tt, set_heap (insert l (f c)) w)
       | None => (Panic nil_dereference, w)
       end.

(** *** net/http *)

Record ResponseWriter : Type := mkResponseWriter {
  rw_header : gmap string string;
  rw_status : option Z;
  rw_body : bytes }.

Definition NewRecorder : ResponseWriter := mkResponseWriter ∅ None EmptyString.

Definition Header_Set (key val : string) (w : ResponseWriter) : ResponseWriter :=
  mkResponseWriter (<[key := val]> (rw_header w)) (rw_status w) (rw_body w).

Definition Header_Del (key : string) (w : ResponseWriter) : ResponseWriter :=
  mkResponseWriter (delete key (rw_header w)) (rw_status w) (rw_body w).

(** Only the first status code counts. *)
Definition WriteHeader (code : Z) (w : ResponseWriter) : ResponseWriter :=
  match rw_status w with
  | Some _ => w
  | None => mkResponseWriter (rw_header w) (Some code) (rw_body w)
  end.

Definition StatusOK : Z := 200.
Definition StatusBadRequest : Z := 400.
Definition StatusMethodNotAllowed : Z := 405.
Definition StatusInternalServerError : Z := 500.
Definition MethodPost : string := "POST".

(** Writing the body sends status 200 when none was sent. *)
Definition Body_Write (data : bytes) (w : ResponseWriter) : ResponseWriter :=
  let w := WriteHeader StatusOK w in
  mkResponseWriter (rw_header w) (rw_status w) (rw_body w +:+ data).

(** [http.Error]. *)
Definition http_Error (w : ResponseWriter) (text : string) (code : Z) : ResponseWriter :=
  let w := Header_Del "Content-Length" w in
  let w := Header_Set "Content-Type" "text/plain; charset=utf-8" w in
  let w := Header_Set "X-Content-Type-Options" "nosniff" w in
  let w := WriteHeader code w in
  Body_Write (text +:+ nl) w.

(** A request: the method, and what [io.ReadAll] yields on the body (the
    bytes read, and the error that stopped the reading if any). *)
Record Request : Type := mkRequest {
  Method : string;
  Body : bytes * option error }.

Definition ReadAll (body : bytes * option error) : bytes * option error := body.

(** [json.NewEncoder(w).Encode] on a map of strings whose keys are given in
    sorted order and whose text needs no escaping. *)
Fixpoint encode_members (kvs : list (string * string)) : string :=
  match kvs with
  | [] => EmptyString
  | [(k, v)] => quoted k +:+ ":" +:+ quoted v
  | (k, v) :: kvs' => quoted k +:+ ":" +:+ quoted v +:+ "," +:+ encode_members kvs'
  end.

Definition Encode (kvs : list (string * string)) (w : ResponseWriter) : ResponseWriter :=
  Body_Write ("{" +:+ encode_members kvs +:+ "}" +:+ nl) w.

(** ** The refactored solution (the Go program reproduced in README.md) *)

(** *** Storage strategies *)

Record FileStorage : Type := mkFileStorage { filename : string }.

Module FileStorage.

Definition Save (fs : FileStorage) (data : bytes) : M (option error) :=
  created <- Create (filename fs) ;;
  match created with
  | inr err => ret (Some (Errorf_w "failed to create file: " err))
  | inl file =>
    written <- File_Write file data ;;
    match snd written with
    | Some err => ret (Some (Errorf_w "failed to write to file: " err))
    | None =>
      Println "Data saved to file" ;;
      ret None
    end
  end.

End FileStorage.

Module DatabaseConnection.

Definition Save (db : ptr) (data : bytes) : M (option error) :=
  c <- load db ;;
  if negb (connected c) then ret (Some (errorString "database connection not established"))
  else
    Printf ("Saving data to database " +:+ DBName c +:+ ": " +:+ data +:+ nl) ;;
    ret None.

Definition Close (db : ptr) : M (option error) :=
  c <- load db ;;
  Printf ("Closing database connection to " +:+ DBName c +:+ nl) ;;
  modify db (λ c, mkDatabaseConnection (Host c) (Port c) (Username c) (Password c)
                    (DBName c) false) ;;
  ret None.

End DatabaseConnection.

Definition NewDatabaseConnection (host : string) (port : Z) (username password dbName : string)
  : M (ptr * option error) :=
  Printf ("Establishing database connection to " +:+ host +:+ ":" +:+ pretty port
         +:+ "..." +:+ nl) ;;
  db <- alloc (mkDatabaseConnection host port username password dbName true) ;;
  Printf ("Successfully connected to database: " +:+ dbName +:+ nl) ;;
  ret (db, None).

Record DatabaseStorage : Type := mkDatabaseStorage { db : ptr }.

Module DatabaseStorage.

Definition Save (ds : DatabaseStorage) (data : bytes) : M (option error) :=
  DatabaseConnection.Save (db ds) data.

End DatabaseStorage.

(** A value of the interface [StorageInterface] is one of its two
    implementations; [Save] on it dispatches on which. *)
Inductive StorageInterface : Type :=
| OfFileStorage (fs : FileStorage)
| OfDatabaseStorage (ds : DatabaseStorage).

Module StorageInterface.

Definition Save (s : StorageInterface) (data : bytes) : M (option error) :=
  match s with
  | OfFileStorage fs => FileStorage.Save fs data
  | OfDatabaseStorage ds => DatabaseStorage.Save ds data
  end.

End StorageInterface.

(** *** Factory *)

Record ConcreteStorageFactory : Type := mkConcreteStorageFactory { database : ptr }.

Definition NewStorageFactory (database : ptr) : ConcreteStorageFactory :=
  mkConcreteStorageFactory database.

Module ConcreteStorageFactory.

Definition CreateStorage (f : ConcreteStorageFactory) (storageType : string)
  : StorageInterface + error :=
  if String.eqb storageType "file" then inl (OfFileStorage (mkFileStorage "data.txt"))
  else if String.eqb storageType "database" then
    match database f with
    | None => inr (errorString "database connection not available")
    | Some _ => inl (OfDatabaseStorage (mkDatabaseStorage (database f)))
    end
  else inr (errorString ("unsupported storage type: " +:+ storageType)).

End ConcreteStorageFactory.

(** *** Validator *)

Inductive RequestValidator : Type := mkRequestValidator.

Definition NewRequestValidator : RequestValidator := mkRequestValidator.

Module RequestValidator.

Definition validTypes : list string := ["file"; "database"].

(** The loop over [validTypes]: [true] when it returns nil from inside. *)
Fixpoint range_validTypes (storageType : string) (types : list string) : bool :=
  match types with
  | [] => false
  | validType :: types' =>
    if String.eqb storageType validType then true
    else range_validTypes storageType types'
  end.

Definition ValidateRequest (v : RequestValidator) (req : SaveRequest) : option error :=
  if Nat.eqb (String.length (Data req)) 0 then Some (errorString "data cannot be empty")
  else if String.eqb (StorageType req) EmptyString then Some (errorString "storage type cannot be empty")
  else if range_validTypes (StorageType req) validTypes then None
  else Some (errorString ("invalid storage type: " +:+ StorageType req)).

End RequestValidator.

(** *** Service *)

(** The field [factory] has the interface type [StorageFactory], of which
    [ConcreteStorageFactory] is the one implementation. *)
Record DataService : Type := mkDataService {
  factory : ConcreteStorageFactory;
  validator : RequestValidator }.

Definition NewDataService (factory : ConcreteStorageFactory) (validator : RequestValidator)
  : DataService :=
  mkDataService factory validator.

Module DataService.

Definition SaveData (ds : DataService) (req : SaveRequest) : M (option error) :=
  match RequestValidator.ValidateRequest (validator ds) req with
  | Some err => ret (Some (Errorf_w "validation failed: " err))
  | None =>
    match ConcreteStorageFactory.CreateStorage (factory ds) (StorageType req) with
    | inr err => ret (Some (Errorf_w "failed to create storage: " err))
    | inl storage =>
      saved <- StorageInterface.Save storage (Data req) ;;
      match saved with
      | Some err => ret (Some (Errorf_w "failed to save data: " err))
      | None => ret None
      end
    end
  end.

End DataService.

(** *** HTTP handler *)

Record HTTPHandler : Type := mkHTTPHandler { dataService : DataService }.

Definition NewHTTPHandler (dataService : DataService) : HTTPHandler :=
  mkHTTPHandler dataService.

Definition zero_SaveRequest : SaveRequest := mkSaveRequest EmptyString EmptyString.

Module HTTPHandler.

Definition HandleSaveData (h : HTTPHandler) (w : ResponseWriter) (r : Request)
  : M ResponseWriter :=
  if negb (String.eqb (Method r) MethodPost)
  then ret (http_Error w "Method not allowed" StatusMethodNotAllowed)
  else
    let '(body, read_err) := ReadAll (Body r) in
    match read_err with
    | Some _ => ret (http_Error w "Failed to read body" StatusBadRequest)
    | None =>
      let '(req, decode_err) := json.Unmarshal body zero_SaveRequest in
      match decode_err with
      | Some _ => ret (http_Error w "Invalid JSON format" StatusBadRequest)
      | None =>
        failed <- DataService.SaveData (dataService h) req ;;
        match failed with
        | Some err =>
          let statusCode :=
            if String.eqb (Error err) "validation failed"
            then StatusBadRequest else StatusInternalServerError in
          ret (http_Error w (Error err) statusCode)
        | None =>
          let w := Header_Set "Content-Type" "application/json" w in
          let w := WriteHeader StatusOK w in
          ret (Encode [("message", "Data saved successfully"); ("status", "success")] w)
        end
      end
    end.

End HTTPHandler.

(** *** Configuration and server *)

Record Configuration : Type := mkConfiguration {
  cfg_Port : string;
  DatabaseHost : string;
  DatabasePort : Z;
  DatabaseUser : string;
  DatabasePass : string;
  DatabaseName : string }.

Definition NewConfiguration : Configuration :=
  mkConfiguration "8080" "localhost" 5432 "admin" "password123" "app_database".

Record APIServer : Type := mkAPIServer {
  config : Configuration;
  handler : HTTPHandler;
  srv_database : ptr }.

Definition NewAPIServer (config : Configuration) : M (option APIServer * option error) :=
  connection <- NewDatabaseConnection (DatabaseHost config) (DatabasePort config)
                  (DatabaseUser config) (DatabasePass config) (DatabaseName config) ;;
  match snd connection with
  | Some err => ret (None, Some (Errorf_w "failed to initialize database: " err))
  | None =>
    let database := fst connection in
    let validator := NewRequestValidator in
    let factory := NewStorageFactory database in
    let dataService := NewDataService factory validator in
    let handler := NewHTTPHandler dataService in
    ret (Some (mkAPIServer config handler database), None)
  end.

Module APIServer.

Definition Shutdown (s : APIServer) : M (option error) :=
  Println "Shutting down server..." ;;
  DatabaseConnection.Close (srv_database s).

End APIServer.

(** ** The original program (main.go) *)

Module Original.

Record Database : Type := mkDatabase {
  Host : string;
  Port : Z;
  Username : string;
  Password : string;
  DBName : string }.

Definition NewDatabase (host : string) (port : Z) (username password dbName : string)
  : M Database :=
  Printf ("Establishing database connection to " +:+ host +:+ ":" +:+ pretty port
         +:+ "..." +:+ nl) ;;
  ret (mkDatabase host port username password dbName).

Module Database.

Definition Save (db : Database) (data : bytes) : M (option error) :=
  Printf ("Saving data to database " +:+ DBName db +:+ ": " +:+ data +:+ nl) ;;
  ret None.

End Database.

Record DataStorage : Type := mkDataStorage { StorageType : string }.

Module DataStorage.

Definition SaveData (ds : DataStorage) (data : bytes) : M (option error) :=
  if String.eqb (StorageType ds) "file" then
    created <- Create "data.txt" ;;
    match created with
    | inr err => ret (Some err)
    | inl file =>
      File_Write file data ;;
      Println "Data saved to file" ;;
      ret None
    end
  else if String.eqb (StorageType ds) "database" then
    db <- NewDatabase "localhost" 5432 "admin" "password123" "app_database" ;;
    Database.Save db data ;;
    ret None
  else ret (Some (errorString ("unsupported storage type: " +:+ StorageType ds))).

End DataStorage.

(** The struct [Request] of main.go is [SaveRequest] under another name. *)
Module DataHandler.

Definition HandleSaveData (w : ResponseWriter) (r : Request) : M ResponseWriter :=
  let '(body, read_err) := ReadAll (Body r) in
  match read_err with
  | Some _ => ret (http_Error w "Failed to read body" StatusBadRequest)
  | None =>
    let '(mkSaveRequest req_Data req_StorageType, decode_err) :=
      json.Unmarshal body zero_SaveRequest in
    match decode_err with
    | Some _ => ret (http_Error w "Invalid JSON" StatusBadRequest)
    | None =>
      let storage := mkDataStorage req_StorageType in
      failed <- DataStorage.SaveData storage req_Data ;;
      match failed with
      | Some err => ret (http_Error w (Error err) StatusInternalServerError)
      | None => ret (Body_Write "Data saved successfully" (WriteHeader StatusOK w))
      end
    end
  end.

End DataHandler.

End Original.

(** ** The vocabulary of the specification *)

(** The outcome of a save as the specification classifies it.  The Go code
    returns a plain [error]; which of its three wrapping sites produced the
    error is told by the prefix of the message. *)
Inductive SaveOutcome : Type :=
| Success
| ValidationError (detail : string)
| UnsupportedStorageKind (detail : string)
| PersistenceError (detail : string).

Definition classify (failed : option error) : option SaveOutcome :=
  match failed with
  | None => Some Success
  | Some err =>
    match json.strip_prefix "validation failed: " (Error err) with
    | Some detail => Some (ValidationError detail)
    | None =>
      match json.strip_prefix "failed to create storage: " (Error err) with
      | Some detail => Some (UnsupportedStorageKind detail)
      | None =>
        match json.strip_prefix "failed to save data: " (Error err) with
        | Some detail => Some (PersistenceError detail)
        | None => None
        end
      end
    end
  end.

(** The outcome of a finished call; a call that panicked has none. *)
Definition outcome (call : result (option error) * World) : option SaveOutcome :=
  match fst call with
  | Ok failed => classify failed
  | Panic _ => None
  end.

(** The orchestration as the specification words it, over any validator,
    selector and strategy: validate, else create the storage, else persist
    once. *)
Section SaveService.

Context {Strategy : Type}.
Variable validate : SaveRequest → option error.
Variable createStorage : string → Strategy + error.
Variable persist : Strategy → bytes → M (option error).

Definition saveData (req : SaveRequest) : M SaveOutcome :=
  match validate req with
  | Some err => ret (ValidationError (Error err))
  | None =>
    match createStorage (StorageType req) with
    | inr err => ret (UnsupportedStorageKind (Error err))
    | inl strategy =>
      persisted <- persist strategy (Data req) ;;
      match persisted with
      | Some err => ret (PersistenceError (Error err))
      | None => ret Success
      end
    end
  end.

End SaveService.

(** The recognized storage kinds are the validator's list. *)
Definition recognized (kind : string) : Prop := kind ∈ RequestValidator.validTypes.

(** What the validator answers, rule by rule. *)
Inductive validation (req : SaveRequest) : option error → Prop :=
| empty_data :
    Data req = EmptyString →
    validation req (Some (errorString "data cannot be empty"))
| empty_storage_type :
    Data req ≠ EmptyString → StorageType req = EmptyString →
    validation req (Some (errorString "storage type cannot be empty"))
| invalid_storage_type :
    Data req ≠ EmptyString → StorageType req ≠ EmptyString →
    ¬ recognized (StorageType req) →
    validation req (Some (errorString ("invalid storage type: " +:+ StorageType req)))
| valid_request :
    Data req ≠ EmptyString → recognized (StorageType req) →
    validation req None.

(** Whether the backend that [kind] selects can take the payload: the file
    can be created and written in full, or the factory holds a connection
    that is connected.  No backend stands behind any other kind. *)
Definition available (ds : DataService) (w : World) (payload : bytes) (kind : string) : bool :=
  if String.eqb kind "file" then
    match create_fault w !! "data.txt", write_fault w !! "data.txt" with
    | None, None => true
    | None, Some (room, _) => String.length payload <=? room
    | Some _, _ => false
    end
  else if String.eqb kind "database" then
    match database (factory ds) with
    | Some l =>
      match heap w !! l with
      | Some c => connected c
      | None => false
      end
    | None => false
    end
  else false.

(** What a successful save of [payload] leaves behind: the file holds it, or
    the connection's write primitive was handed it. *)
Definition persisted (ds : DataService) (w w' : World) (payload : bytes) (kind : string) : Prop :=
  (kind = "file" → files w' !! "data.txt" = Some payload) ∧
  (kind = "database" →
   ∃ l c, database (factory ds) = Some l ∧ heap w !! l = Some c ∧
          stdout w' = stdout w ++ ["Saving data to database " +:+ DBName c +:+ ": "
                                   +:+ payload +:+ nl]).

(** Several saves through one database strategy, in order. *)
Fixpoint save_each (ds : DatabaseStorage) (payloads : list bytes) : M (list (option error)) :=
  match payloads with
  | [] => ret []
  | payload :: payloads' =>
    r <- DatabaseStorage.Save ds payload ;;
    rs <- save_each ds payloads' ;;
    ret (r :: rs)
  end.

Definition not_established : error := errorString "database connection not established".

Definition disconnect (c : DatabaseConnection) : DatabaseConnection :=
  mkDatabaseConnection (Host c) (Port c) (Username c) (Password c) (DBName c) false.

(** Whether no member of an object names a field of the request struct. *)
Definition omits_fields (members : list (string * json.value)) : bool :=
  forallb (λ member, match json.lookup_field (fst member) with
                     | None => true
                     | Some _ => false
                     end) members.

(** ** A running server, for the examples *)

Definition empty_world : World := mkWorld ∅ ∅ ∅ [] ∅.

Definition the_connection : DatabaseConnection :=
  mkDatabaseConnection "localhost" 5432 "admin" "password123" "app_database" true.

Definition the_service : DataService :=
  NewDataService (NewStorageFactory (Some 0)) NewRequestValidator.

Definition the_server : APIServer :=
  mkAPIServer NewConfiguration (NewHTTPHandler the_service) (Some 0).

(** The world once [NewAPIServer] has returned. *)
Definition running_world : World :=
  mkWorld ∅ ∅ ∅
    ["Establishing database connection to localhost:5432..." +:+ nl;
     "Successfully connected to database: app_database" +:+ nl]
    {[ 0 := the_connection ]}.

(** The world once [Shutdown] has returned as well. *)
Definition stopped_world : World :=
  mkWorld ∅ ∅ ∅
    ["Establishing database connection to localhost:5432..." +:+ nl;
     "Successfully connected to database: app_database" +:+ nl;
     "Shutting down server..." +:+ nl;
     "Closing database connection to app_database" +:+ nl]
    {[ 0 := disconnect the_connection ]}.

(** The JSON body of a save request. *)
Definition save_body (data kind : string) : bytes :=
  "{" +:+ quoted "data" +:+ ":" +:+ quoted data +:+ ","
      +:+ quoted "storage_type" +:+ ":" +:+ quoted kind +:+ "}".

Definition request (method : string) (body : bytes) : Request :=
  mkRequest method (body, None).

(** The handler, started on a fresh response writer in [world], answers
    request [r] with [status] and [text] and leaves [world']. *)
Definition answers (h : HTTPHandler) (world : World) (r : Request)
  (status : Z) (text : bytes) (world' : World) : Prop :=
  ∃ response,
    HTTPHandler.HandleSaveData h NewRecorder r world = (Ok response, world') ∧
    rw_status response = Some status ∧
    rw_body response = text.

(** The body decodes without error to a request that the validator rejects
    for the reason [detail]. *)
Definition rejected_by_validator (body : bytes) (detail : string) : Prop :=
  ∃ req err,
    json.Unmarshal body zero_SaveRequest = (req, None) ∧
    RequestValidator.ValidateRequest NewRequestValidator req = Some err ∧
    Error err = detail.

(** ** The rest of the programs: routes, start and main *)

Definition panic {A} (msg : string) : M A := λ w, (Panic msg, w).

Definition HandlerFunc : Type := ResponseWriter → Request → M ResponseWriter.

(** The closure [Start] registers for the health check. *)
Definition healthCheck : HandlerFunc :=
  λ w _, ret (Encode [("status", "healthy")]
                (Header_Set "Content-Type" "application/json" w)).

(** How [main] ends: it returns, or [log.Fatal] exits the process with
    status 1.  The log itself goes to standard error, which the world does
    not record. *)
Inductive termination : Type :=
| Returns
| Exits (code : Z).

Definition log_Fatal : M termination := ret (Exits 1).

Section Serving.

(** [http.ListenAndServe], given the address and the handlers registered by
    pattern: whatever serving does to the world, and the error it ends
    with. *)
Variable ListenAndServe : string → (string → option HandlerFunc) → M (option error).

Definition routes (s : APIServer) : string → option HandlerFunc :=
  λ pattern,
    if String.eqb pattern "/save-data" then Some (HTTPHandler.HandleSaveData (handler s))
    else if String.eqb pattern "/health" then Some healthCheck
    else None.

Definition Start (s : option APIServer) : M (option error) :=
  match s with
  | None => panic nil_dereference
  | Some s =>
    Printf ("Server starting on :" +:+ cfg_Port (config s) +:+ nl) ;;
    ListenAndServe (":" +:+ cfg_Port (config s)) (routes s)
  end.

(** The function [main] defers: shut the server down and log a failure. *)
Definition deferred_Shutdown (s : option APIServer) : M unit :=
  match s with
  | None => Println "Shutting down server..." ;; panic nil_dereference
  | Some s => APIServer.Shutdown s ;; ret tt
  end.

(** [main].  A deferred call runs when the function returns or panics, not
    when [log.Fatal] exits the process. *)
Definition main : M termination :=
  created <- NewAPIServer NewConfiguration ;;
  match snd created with
  | Some _ => log_Fatal
  | None =>
    let server := fst created in
    λ w, match Start server w with
         | (Ok (Some _), w1) => log_Fatal w1
         | (Ok None, w1) => (deferred_Shutdown server ;; ret Returns) w1
         | (Panic msg, w1) =>
           match deferred_Shutdown server w1 with
           | (Ok _, w2) => (Panic msg, w2)
           | (Panic msg', w2) => (Panic msg', w2)
           end
         end
  end.

End Serving.

(** Requests served one after the other, each on a fresh response writer. *)
Fixpoint handle_each (h : HandlerFunc) (rs : list Request) : M (list ResponseWriter) :=
  match rs with
  | [] => ret []
  | r :: rs' =>
    w <- h NewRecorder r ;;
    ws <- handle_each h rs' ;;
    ret (w :: ws)
  end.

(** ** Vocabulary for the further properties *)

(** [w'] differs from [w] at most in the file [path] and in output appended
    to the standard output. *)
Definition touches_only (path : string) (w w' : World) : Prop :=
  heap w' = heap w ∧
  create_fault w' = create_fault w ∧
  write_fault w' = write_fault w ∧
  (∀ p, p ≠ path → files w' !! p = files w !! p) ∧
  ∃ out, stdout w' = stdout w ++ out.

(** Whether one write of [payload] to [path] goes through in full. *)
Definition writes_in_full (w : World) (path : string) (payload : bytes) : bool :=
  match write_fault w !! path with
  | Some (room, _) => String.length payload <=? room
  | None => true
  end.

(** The line every new database connection prints first under the
    configuration both programs use. *)
Definition establishing : string :=
  "Establishing database connection to localhost:5432..." +:+ nl.


Definition started_with (c : DatabaseConnection) (config : Configuration) : Prop :=
  c = mkDatabaseConnection (DatabaseHost config) (DatabasePort config) (DatabaseUser config)
        (DatabasePass config) (DatabaseName config) true.

(** The world after a save of [data] to the file [path] went through. *)
Definition file_saved (path : string) (data : bytes) (w : World) : World :=
  set_stdout (λ out, out ++ ["Data saved to file" +:+ nl]) (set_files (insert path data) w).

(** The line the connection's write primitive prints for a payload. *)
Definition saving_line (c : DatabaseConnection) (data : bytes) : string :=
  "Saving data to database " +:+ DBName c +:+ ": " +:+ data +:+ nl.

(** What the refactored handler writes after a successful save. *)
Definition success_response (w : ResponseWriter) : ResponseWriter :=
  Encode [("message", "Data saved successfully"); ("status", "success")]
    (WriteHeader StatusOK (Header_Set "Content-Type" "application/json" w)).

(** The body of the JSON response to a successful save. *)
Definition success_body : bytes :=
  "{" +:+ quoted "message" +:+ ":" +:+ quoted "Data saved successfully" +:+ ","
      +:+ quoted "status" +:+ ":" +:+ quoted "success" +:+ "}" +:+ nl.

(** What one write of [data] leaves in the file [path]: all of it, or the
    part that fits. *)
Definition written (w : World) (path : string) (data : bytes) : bytes :=
  match write_fault w !! path with
  | Some (room, _) =>
    if String.length data <=? room then data else String.substring 0 room data
  | None => data
  end.


(** * Properties *)

(** ** Library facts *)

Lemma strip_prefix_app (p s : string) : json.strip_prefix p (p +:+ s) = Some s.
Proof.
  induction p as [|c p IH]; simpl; [reflexivity|].
  rewrite Ascii.eqb_refl. exact IH.
Qed.

Lemma length_zero_empty (s : string) : Nat.eqb (String.length s) 0 = true ↔ s = EmptyString.
Proof. destruct s; simpl; split; congruence. Qed.

(** ** Startup and shutdown *)

Lemma startup :
  NewAPIServer NewConfiguration empty_world = (Ok (Some the_server, None), running_world).
Proof. vm_compute. reflexivity. Qed.

Lemma shutdown :
  APIServer.Shutdown the_server running_world = (Ok None, stopped_world).
Proof. vm_compute. reflexivity. Qed.

(** ** The validator *)

Lemma range_validTypes_recognized (kind : string) :
  RequestValidator.range_validTypes kind RequestValidator.validTypes = true ↔ recognized kind.
Proof.
  unfold recognized, RequestValidator.validTypes. simpl.
  rewrite !elem_of_cons, elem_of_nil.
  destruct (String.eqb_spec kind "file") as [->|Hfile]; [tauto|].
  destruct (String.eqb_spec kind "database") as [->|Hdb]; [tauto|].
  split; [discriminate | tauto].
Qed.

Lemma recognized_cases (kind : string) :
  recognized kind ↔ kind = "file" ∨ kind = "database".
Proof.
  unfold recognized, RequestValidator.validTypes.
  rewrite !elem_of_cons, elem_of_nil. tauto.
Qed.

Lemma ValidateRequest_validation (v : RequestValidator) (req : SaveRequest) :
  validation req (RequestValidator.ValidateRequest v req).
Proof.
  unfold RequestValidator.ValidateRequest.
  destruct (Nat.eqb (String.length (Data req)) 0) eqn:Hlen.
  { apply empty_data. by apply length_zero_empty. }
  assert (Data req ≠ EmptyString) as Hdata.
  { intros H. apply length_zero_empty in H. congruence. }
  destruct (String.eqb_spec (StorageType req) EmptyString) as [Hkind|Hkind].
  { by apply empty_storage_type. }
  destruct (RequestValidator.range_validTypes _ _) eqn:Hrange.
  - apply valid_request; [done|]. by apply range_validTypes_recognized.
  - apply invalid_storage_type; [done..|].
    intros H. apply range_validTypes_recognized in H. congruence.
Qed.

(** C5, as the code has it.  The validator applies its rules in order and the
    first failure wins: an empty payload is rejected with the reason
    [data cannot be empty] whatever the storage kind; otherwise an empty
    storage kind with [storage type cannot be empty]; otherwise a kind outside
    the recognized set with [invalid storage type: <kind>]; otherwise the
    request is accepted.  The validator has no side effect: run in any world
    it returns its answer and leaves that world as it was. *)
Theorem ValidateRequest_rules (v : RequestValidator) (req : SaveRequest) :
  (Data req = EmptyString →
   RequestValidator.ValidateRequest v req = Some (errorString "data cannot be empty")) ∧
  (Data req ≠ EmptyString → StorageType req = EmptyString →
   RequestValidator.ValidateRequest v req
     = Some (errorString "storage type cannot be empty")) ∧
  (Data req ≠ EmptyString → StorageType req ≠ EmptyString → ¬ recognized (StorageType req) →
   RequestValidator.ValidateRequest v req
     = Some (errorString ("invalid storage type: " +:+ StorageType req))) ∧
  (Data req ≠ EmptyString → recognized (StorageType req) →
   RequestValidator.ValidateRequest v req = None) ∧
  (∀ w, ret (RequestValidator.ValidateRequest v req) w
        = (Ok (RequestValidator.ValidateRequest v req), w)).
Proof.
  pose proof (ValidateRequest_validation v req) as Hrules.
  assert (recognized EmptyString → False) as Hempty.
  { intros H. apply recognized_cases in H. destruct H; discriminate. }
  split; [|split; [|split; [|split]]].
  - intros Hdata. inversion Hrules; congruence.
  - intros Hdata Hkind. inversion Hrules; congruence.
  - intros Hdata Hkind Hunknown. inversion Hrules; congruence.
  - intros Hdata Hkind. inversion Hrules; congruence.
  - reflexivity.
Qed.

Lemma ValidateRequest_rules_witness :
  RequestValidator.ValidateRequest NewRequestValidator (mkSaveRequest EmptyString "redis")
    = Some (errorString "data cannot be empty") ∧
  RequestValidator.ValidateRequest NewRequestValidator (mkSaveRequest "Hello" EmptyString)
    = Some (errorString "storage type cannot be empty") ∧
  RequestValidator.ValidateRequest NewRequestValidator (mkSaveRequest "Hello" "redis")
    = Some (errorString "invalid storage type: redis") ∧
  RequestValidator.ValidateRequest NewRequestValidator (mkSaveRequest "Hello" "database")
    = None.
Proof.
  split; [|split; [|split]].
  - apply (ValidateRequest_rules NewRequestValidator (mkSaveRequest EmptyString "redis")).
    reflexivity.
  - apply (ValidateRequest_rules NewRequestValidator (mkSaveRequest "Hello" EmptyString));
      [discriminate|reflexivity].
  - apply (ValidateRequest_rules NewRequestValidator (mkSaveRequest "Hello" "redis"));
      [discriminate|discriminate|].
    apply (bool_decide_eq_false_1 _). reflexivity.
  - apply (ValidateRequest_rules NewRequestValidator (mkSaveRequest "Hello" "database"));
      [discriminate|].
    apply (bool_decide_eq_true_1 _). reflexivity.
Defined.

(** C5, as the specification words it, fails: for the request with an empty
    payload and kind [file] the validator's reason is [data cannot be empty],
    not [payload empty]. *)
Lemma ValidateRequest_reason_differs :
  let req := mkSaveRequest EmptyString "file" in
  Data req = EmptyString ∧
  option_map Error (RequestValidator.ValidateRequest NewRequestValidator req)
    = Some "data cannot be empty" ∧
  option_map Error (RequestValidator.ValidateRequest NewRequestValidator req)
    ≠ Some "payload empty".
Proof. vm_compute. repeat split; congruence. Qed.

(** ** The database connection *)

Lemma DatabaseConnection_Save_eq (l : loc) (c : DatabaseConnection) (data : bytes) (w : World) :
  heap w !! l = Some c →
  DatabaseConnection.Save (Some l) data w =
    if connected c
    then (Ok None, set_stdout (λ out, out ++ ["Saving data to database " +:+ DBName c +:+ ": "
                                               +:+ data +:+ nl]) w)
    else (Ok (Some (errorString "database connection not established")), w).
Proof.
  intros Hl. unfold DatabaseConnection.Save, bind, load. rewrite Hl.
  destruct (connected c); reflexivity.
Qed.

Lemma DatabaseConnection_Close_eq (l : loc) (c : DatabaseConnection) (w : World) :
  heap w !! l = Some c →
  DatabaseConnection.Close (Some l) w =
    (Ok None,
     set_heap (insert l (disconnect c))
       (set_stdout (λ out, out ++ ["Closing database connection to " +:+ DBName c +:+ nl]) w)).
Proof.
  intros Hl. unfold DatabaseConnection.Close, modify, bind, load, Printf. simpl.
  rewrite Hl. simpl. rewrite Hl. reflexivity.
Qed.

Lemma DatabaseStorage_Save_closed
  (ds : DatabaseStorage) (l : loc) (c : DatabaseConnection) (payload : bytes) (w : World) :
  db ds = Some l → heap w !! l = Some c → connected c = false →
  DatabaseStorage.Save ds payload w = (Ok (Some not_established), w).
Proof.
  intros Hdb Hl Hc. unfold DatabaseStorage.Save.
  rewrite Hdb, (DatabaseConnection_Save_eq l c) by done. by rewrite Hc.
Qed.

(** C7, as the code has it.  Whenever the referenced connection reports
    not-connected, the database strategy's save returns the error
    [database connection not established] and leaves the world as it was:
    the connection's fields, the files and the output are unchanged.  Through
    the service the same error is a persistence failure carrying that
    detail, again with the world unchanged. *)
Theorem DatabaseStorage_Save_not_connected
  (ds : DatabaseStorage) (l : loc) (c : DatabaseConnection) (payload : bytes) (w : World) :
  db ds = Some l → heap w !! l = Some c → connected c = false →
  DatabaseStorage.Save ds payload w
    = (Ok (Some (errorString "database connection not established")), w) ∧
  (payload ≠ EmptyString →
   ∃ err, DataService.SaveData (NewDataService (NewStorageFactory (db ds)) NewRequestValidator)
            (mkSaveRequest payload "database") w = (Ok (Some err), w) ∧
          classify (Some err)
            = Some (PersistenceError "database connection not established")).
Proof.
  intros Hdb Hl Hc.
  pose proof (DatabaseStorage_Save_closed ds l c payload w Hdb Hl Hc) as Hsave.
  split; [exact Hsave|].
  intros Hpayload. exists (Errorf_w "failed to save data: " not_established).
  split; [|reflexivity].
  unfold DataService.SaveData, RequestValidator.ValidateRequest. simpl.
  destruct (Nat.eqb (String.length payload) 0) eqn:Hlen.
  { apply length_zero_empty in Hlen. congruence. }
  unfold ConcreteStorageFactory.CreateStorage. simpl. rewrite Hdb.
  unfold bind. simpl. rewrite <- Hdb.
  change (DatabaseStorage.Save {| db := db ds |} payload w)
    with (DatabaseStorage.Save ds payload w).
  by rewrite Hsave.
Qed.

Lemma DatabaseStorage_Save_not_connected_witness :
  heap stopped_world !! 0 = Some (disconnect the_connection) ∧
  connected (disconnect the_connection) = false ∧
  DatabaseStorage.Save (mkDatabaseStorage (Some 0)) "Hello" stopped_world
    = (Ok (Some (errorString "database connection not established")), stopped_world) ∧
  ("Hello" ≠ EmptyString →
   ∃ err, DataService.SaveData
            (NewDataService (NewStorageFactory (db (mkDatabaseStorage (Some 0))))
               NewRequestValidator)
            (mkSaveRequest "Hello" "database") stopped_world = (Ok (Some err), stopped_world) ∧
          classify (Some err)
            = Some (PersistenceError "database connection not established")).
Proof.
  split; [reflexivity|]. split; [reflexivity|].
  apply (DatabaseStorage_Save_not_connected (mkDatabaseStorage (Some 0)) 0
           (disconnect the_connection) "Hello" stopped_world); reflexivity.
Defined.

(** C7, as the specification words it, fails: on the connection closed at
    shutdown the save returns an error whose text is
    [database connection not established], not [connection not established]. *)
Lemma DatabaseStorage_Save_text_differs :
  heap stopped_world !! 0 = Some (disconnect the_connection) ∧
  connected (disconnect the_connection) = false ∧
  DatabaseStorage.Save (mkDatabaseStorage (Some 0)) "Hello" stopped_world
    = (Ok (Some (errorString "database connection not established")), stopped_world) ∧
  DatabaseStorage.Save (mkDatabaseStorage (Some 0)) "Hello" stopped_world
    ≠ (Ok (Some (errorString "connection not established")), stopped_world).
Proof.
  split; [reflexivity|]. split; [reflexivity|].
  assert (DatabaseStorage.Save (mkDatabaseStorage (Some 0)) "Hello" stopped_world
          = (Ok (Some (errorString "database connection not established")), stopped_world))
    as Heq by reflexivity.
  split; [exact Heq|]. rewrite Heq. intros H. inversion H.
Qed.

Lemma save_each_not_connected
  (ds : DatabaseStorage) (l : loc) (c : DatabaseConnection) (w : World) (payloads : list bytes) :
  db ds = Some l → heap w !! l = Some c → connected c = false →
  save_each ds payloads w = (Ok (map (λ _, Some not_established) payloads), w).
Proof.
  intros Hdb Hl Hc. induction payloads as [|payload payloads IH]; [reflexivity|].
  simpl. unfold bind.
  rewrite (DatabaseStorage_Save_closed ds l c payload w Hdb Hl Hc).
  by rewrite IH.
Qed.

(** C9.  Closing a connection returns no error and leaves its connected flag
    false; from then on every save through a database strategy on that
    connection fails with the connection-not-established error, however many
    are attempted; and in any world a save through such a strategy returns an
    error exactly when the connection is not connected. *)
Theorem Close_then_Save_fails (l : loc) (c : DatabaseConnection) (w : World) :
  heap w !! l = Some c →
  ∃ w', DatabaseConnection.Close (Some l) w = (Ok None, w') ∧
        (∃ c', heap w' !! l = Some c' ∧ connected c' = false) ∧
        (∀ ds payloads, db ds = Some l →
           save_each ds payloads w' = (Ok (map (λ _, Some not_established) payloads), w')) ∧
        (∀ ds payload w2 c2, db ds = Some l → heap w2 !! l = Some c2 →
           (∃ err, fst (DatabaseStorage.Save ds payload w2) = Ok (Some err))
           ↔ connected c2 = false).
Proof.
  intros Hl. eexists. split; [by apply DatabaseConnection_Close_eq|].
  assert (heap (set_heap (insert l (disconnect c))
                  (set_stdout (λ out, out ++ ["Closing database connection to "
                                               +:+ DBName c +:+ nl]) w)) !! l
          = Some (disconnect c)) as Hl'.
  { simpl. apply lookup_insert_eq. }
  split; [by exists (disconnect c)|].
  split.
  - intros ds payloads Hdb. by apply (save_each_not_connected ds l (disconnect c)).
  - intros ds payload w2 c2 Hdb Hl2. unfold DatabaseStorage.Save.
    rewrite Hdb, (DatabaseConnection_Save_eq l c2) by done.
    destruct (connected c2); simpl; split.
    + intros [err Herr]. discriminate.
    + discriminate.
    + reflexivity.
    + intros _. by eexists.
Qed.

Lemma Close_then_Save_fails_witness :
  heap running_world !! 0 = Some the_connection ∧
  ∃ w', DatabaseConnection.Close (Some 0) running_world = (Ok None, w') ∧
        (∃ c', heap w' !! 0 = Some c' ∧ connected c' = false) ∧
        (∀ ds payloads, db ds = Some 0 →
           save_each ds payloads w' = (Ok (map (λ _, Some not_established) payloads), w')) ∧
        (∀ ds payload w2 c2, db ds = Some 0 → heap w2 !! 0 = Some c2 →
           (∃ err, fst (DatabaseStorage.Save ds payload w2) = Ok (Some err))
           ↔ connected c2 = false).
Proof.
  split; [reflexivity|].
  apply (Close_then_Save_fails 0 the_connection running_world). reflexivity.
Defined.

(** ** The save service *)

Lemma classify_validation (e : error) :
  classify (Some (Errorf_w "validation failed: " e)) = Some (ValidationError (Error e)).
Proof. unfold classify, Errorf_w. simpl Error. by rewrite strip_prefix_app. Qed.

Lemma classify_creation (e : error) :
  classify (Some (Errorf_w "failed to create storage: " e))
    = Some (UnsupportedStorageKind (Error e)).
Proof.
  unfold classify, Errorf_w. simpl Error.
  change (json.strip_prefix "validation failed: " ("failed to create storage: " +:+ Error e))
    with (@None string).
  by rewrite strip_prefix_app.
Qed.

Lemma classify_persistence (e : error) :
  classify (Some (Errorf_w "failed to save data: " e)) = Some (PersistenceError (Error e)).
Proof.
  unfold classify, Errorf_w. simpl Error.
  change (json.strip_prefix "validation failed: " ("failed to save data: " +:+ Error e))
    with (@None string).
  change (json.strip_prefix "failed to create storage: " ("failed to save data: " +:+ Error e))
    with (@None string).
  by rewrite strip_prefix_app.
Qed.

(** C4.  [SaveData] is the specification's algorithm run with the
    repository's validator, factory and strategies: a validation failure is
    returned as a validation outcome; otherwise a failure to create the
    storage as an unsupported-kind outcome; otherwise the strategy's save is
    called on the payload and its failure is returned as a persistence
    outcome, its success as success.  The world a call leaves is either the
    one it started in or the one a single save of the created strategy
    leaves: at most one persistence side effect per call. *)
Theorem SaveData_algorithm (ds : DataService) (req : SaveRequest) (w : World) :
  (failed <- DataService.SaveData ds req ;; ret (classify failed)) w
  = (outcome <- saveData (RequestValidator.ValidateRequest (validator ds))
                  (ConcreteStorageFactory.CreateStorage (factory ds))
                  StorageInterface.Save req ;;
     ret (Some outcome)) w
  ∧ (snd (DataService.SaveData ds req w) = w
     ∨ ∃ storage,
         ConcreteStorageFactory.CreateStorage (factory ds) (StorageType req) = inl storage ∧
         snd (DataService.SaveData ds req w)
           = snd (StorageInterface.Save storage (Data req) w)).
Proof.
  unfold DataService.SaveData, saveData.
  destruct (RequestValidator.ValidateRequest (validator ds) req) as [err|].
  { split; [|by left]. unfold bind, ret. by rewrite classify_validation. }
  destruct (ConcreteStorageFactory.CreateStorage (factory ds) (StorageType req))
    as [storage|err].
  2:{ split; [|by left]. unfold bind, ret. by rewrite classify_creation. }
  split.
  - unfold bind, ret.
    by destruct (StorageInterface.Save storage (Data req) w) as [[[err|]|msg] w'].
  - right. exists storage. split; [done|]. unfold bind, ret.
    by destruct (StorageInterface.Save storage (Data req) w) as [[[err|]|msg] w'].
Qed.

Lemma FileStorage_Save_available (payload : bytes) (w : World) :
  create_fault w !! "data.txt" = None →
  match write_fault w !! "data.txt" with
  | Some (room, _) => String.length payload <=? room
  | None => true
  end = true →
  FileStorage.Save (mkFileStorage "data.txt") payload w
  = (Ok None,
     set_stdout (λ out, out ++ ["Data saved to file" +:+ nl])
       (set_files (insert "data.txt" payload) w)).
Proof.
  intros Hcreate Hwrite.
  unfold FileStorage.Save, bind, Create, File_Write, Println, Printf, ret. simpl.
  rewrite Hcreate. simpl. rewrite lookup_insert_eq. simpl.
  assert (∀ w1 : World, set_files (insert "data.txt" payload)
                          (set_files (insert "data.txt" EmptyString) w1)
                        = set_files (insert "data.txt" payload) w1) as Htwice.
  { intros w1. unfold set_files. simpl. by rewrite insert_insert_eq. }
  destruct (write_fault w !! "data.txt") as [[room reason]|] eqn:Hfault; simpl.
  - apply Nat.leb_le in Hwrite. rewrite decide_True by done. simpl.
    by rewrite Htwice.
  - by rewrite Htwice.
Qed.

(** C3, as the code has it.  For every non-empty payload and every
    recognized storage kind whose backend is available (the file can be
    created and written in full; the factory holds a connection that is
    connected), [SaveData] returns no error, and what the selected strategy
    persisted is the payload, byte for byte: the file holds exactly the
    payload, or the connection's write primitive was handed exactly the
    payload. *)
Theorem SaveData_persists_payload (ds : DataService) (req : SaveRequest) (w : World) :
  Data req ≠ EmptyString →
  recognized (StorageType req) →
  available ds w (Data req) (StorageType req) = true →
  ∃ w', DataService.SaveData ds req w = (Ok None, w') ∧
        classify None = Some Success ∧
        persisted ds w w' (Data req) (StorageType req).
Proof.
  intros Hdata Hkind Havail.
  assert (RequestValidator.ValidateRequest (validator ds) req = None) as Hvalid.
  { pose proof (ValidateRequest_validation (validator ds) req) as Hrules.
    inversion Hrules as [| _ Hempty | |]; try congruence.
    rewrite Hempty in Hkind. apply recognized_cases in Hkind.
    destruct Hkind; discriminate. }
  unfold DataService.SaveData. rewrite Hvalid.
  unfold available in Havail. unfold ConcreteStorageFactory.CreateStorage.
  destruct (String.eqb_spec (StorageType req) "file") as [Hfile|Hfile].
  - destruct (create_fault w !! "data.txt") eqn:Hcreate; [discriminate|].
    unfold bind. simpl.
    rewrite FileStorage_Save_available; [|done|].
    2:{ destruct (write_fault w !! "data.txt") as [[room reason]|]; done. }
    eexists. split; [reflexivity|]. split; [reflexivity|].
    split; [intros _; simpl; apply lookup_insert_eq|].
    intros Hdb. congruence.
  - destruct (String.eqb_spec (StorageType req) "database") as [Hdb|Hdb]; [|done].
    destruct (database (factory ds)) as [l|] eqn:Hl; [|done].
    destruct (heap w !! l) as [c|] eqn:Hc; [|done].
    unfold bind. simpl. unfold DatabaseStorage.Save. simpl.
    rewrite (DatabaseConnection_Save_eq l c) by done. rewrite Havail.
    eexists. split; [reflexivity|]. split; [reflexivity|].
    split; [congruence|]. intros _. exists l, c. done.
Qed.

Lemma SaveData_persists_payload_witness :
  Data (mkSaveRequest "Hello" "file") ≠ EmptyString ∧
  recognized (StorageType (mkSaveRequest "Hello" "file")) ∧
  available the_service running_world "Hello" "file" = true ∧
  ∃ w', DataService.SaveData the_service (mkSaveRequest "Hello" "file") running_world
          = (Ok None, w') ∧
        classify None = Some Success ∧
        persisted the_service running_world w' "Hello" "file".
Proof.
  assert (Data (mkSaveRequest "Hello" "file") ≠ EmptyString) as Hdata by discriminate.
  assert (recognized (StorageType (mkSaveRequest "Hello" "file"))) as Hkind.
  { apply (bool_decide_eq_true_1 _). reflexivity. }
  split; [exact Hdata|]. split; [exact Hkind|]. split; [reflexivity|].
  apply (SaveData_persists_payload the_service (mkSaveRequest "Hello" "file") running_world
           Hdata Hkind).
  reflexivity.
Defined.

(** C3, as the specification words it, fails: once the connection has been
    closed, the non-empty payload [Hello] with the recognized kind [database]
    is answered with an error, the persistence failure of the closed
    connection, and nothing is persisted. *)
Lemma SaveData_recognized_may_fail :
  Data (mkSaveRequest "Hello" "database") ≠ EmptyString ∧
  recognized (StorageType (mkSaveRequest "Hello" "database")) ∧
  DataService.SaveData the_service (mkSaveRequest "Hello" "database") stopped_world
    = (Ok (Some (Errorf_w "failed to save data: " not_established)), stopped_world) ∧
  classify (Some (Errorf_w "failed to save data: " not_established))
    = Some (PersistenceError "database connection not established") ∧
  fst (DataService.SaveData the_service (mkSaveRequest "Hello" "database") stopped_world)
    ≠ Ok None.
Proof.
  split; [discriminate|].
  split; [apply (bool_decide_eq_true_1 _); reflexivity|].
  split; [reflexivity|]. split; [reflexivity|].
  discriminate.
Qed.

(** C6, as the code has it.  For every storage kind outside the recognized
    set [SaveData] returns an error and leaves the world as it was: no file,
    database or other write happens.  The error is the validator's, so the
    outcome is a validation failure: the validator rejects the kind before
    the factory is asked for a strategy.  No strategy's save is invoked: the
    outcome is the same whatever the strategies would do. *)
Theorem SaveData_unrecognized_kind (ds : DataService) (req : SaveRequest) (w : World) :
  ¬ recognized (StorageType req) →
  ∃ err detail,
    DataService.SaveData ds req w = (Ok (Some err), w) ∧
    classify (Some err) = Some (ValidationError detail) ∧
    ∀ persist : StorageInterface → bytes → M (option error),
      saveData (RequestValidator.ValidateRequest (validator ds))
        (ConcreteStorageFactory.CreateStorage (factory ds)) persist req w
      = (Ok (ValidationError detail), w).
Proof.
  intros Hkind. unfold DataService.SaveData, saveData.
  pose proof (ValidateRequest_validation (validator ds) req) as Hrules.
  destruct (RequestValidator.ValidateRequest (validator ds) req) as [err|].
  - exists (Errorf_w "validation failed: " err), (Error err).
    split; [reflexivity|]. split; [apply classify_validation|]. reflexivity.
  - inversion Hrules. contradiction.
Qed.

Lemma SaveData_unrecognized_kind_witness :
  ¬ recognized (StorageType (mkSaveRequest "Hello" "redis")) ∧
  ∃ err detail,
    DataService.SaveData the_service (mkSaveRequest "Hello" "redis") running_world
      = (Ok (Some err), running_world) ∧
    classify (Some err) = Some (ValidationError detail) ∧
    ∀ persist : StorageInterface → bytes → M (option error),
      saveData (RequestValidator.ValidateRequest (validator the_service))
        (ConcreteStorageFactory.CreateStorage (factory the_service)) persist
        (mkSaveRequest "Hello" "redis") running_world
      = (Ok (ValidationError detail), running_world).
Proof.
  assert (¬ recognized (StorageType (mkSaveRequest "Hello" "redis"))) as Hkind.
  { apply (bool_decide_eq_false_1 _). reflexivity. }
  split; [exact Hkind|].
  apply (SaveData_unrecognized_kind the_service (mkSaveRequest "Hello" "redis") running_world
           Hkind).
Defined.

(** C6, as the specification words it, fails: for the payload [Hello] and
    the kind [redis], which is outside the recognized set, the outcome of
    [SaveData] is the validation failure [invalid storage type: redis] and
    not an unsupported-storage-kind outcome. *)
Lemma SaveData_unrecognized_is_validation_failure :
  ¬ recognized (StorageType (mkSaveRequest "Hello" "redis")) ∧
  outcome (DataService.SaveData the_service (mkSaveRequest "Hello" "redis") running_world)
    = Some (ValidationError "invalid storage type: redis") ∧
  ∀ detail,
    outcome (DataService.SaveData the_service (mkSaveRequest "Hello" "redis") running_world)
      ≠ Some (UnsupportedStorageKind detail).
Proof.
  split; [apply (bool_decide_eq_false_1 _); reflexivity|].
  split; [reflexivity|]. intros detail. discriminate.
Qed.

(** ** The refactored handler *)

Lemma WriteHeader_body (code : Z) (w : ResponseWriter) :
  rw_body (WriteHeader code w) = rw_body w.
Proof. unfold WriteHeader. by destruct (rw_status w). Qed.

Lemma http_Error_status (w : ResponseWriter) (text : string) (code : Z) :
  rw_status w = None → rw_status (http_Error w text code) = Some code.
Proof. intros Hfresh. unfold http_Error, Body_Write, WriteHeader. simpl. by rewrite Hfresh. Qed.

Lemma http_Error_body (w : ResponseWriter) (text : string) (code : Z) :
  rw_body (http_Error w text code) = rw_body w +:+ text +:+ nl.
Proof.
  unfold http_Error, Body_Write. simpl. by rewrite !WriteHeader_body.
Qed.

(** The message of a wrapped validation error is never the bare prefix the
    handler compares it with. *)
Lemma wrapped_validation_not_bare (detail : string) :
  String.eqb ("validation failed: " +:+ detail) "validation failed" = false.
Proof. reflexivity. Qed.

(** A request with another method than POST is answered 405 at once: the
    body is not looked at and the world is left as it was. *)
Lemma HandleSaveData_method_not_allowed
  (h : HTTPHandler) (w : ResponseWriter) (r : Request) (world : World) :
  Method r ≠ MethodPost →
  HTTPHandler.HandleSaveData h w r world
  = (Ok (http_Error w "Method not allowed" StatusMethodNotAllowed), world).
Proof.
  intros Hmethod. unfold HTTPHandler.HandleSaveData.
  destruct (String.eqb_spec (Method r) MethodPost); [contradiction|reflexivity].
Qed.

Lemma HandleSaveData_decoded
  (h : HTTPHandler) (w : ResponseWriter) (body : bytes) (req : SaveRequest) (world : World) :
  json.Unmarshal body zero_SaveRequest = (req, None) →
  HTTPHandler.HandleSaveData h w (request MethodPost body) world
  = (failed <- DataService.SaveData (dataService h) req ;;
     match failed with
     | Some err =>
       ret (http_Error w (Error err)
              (if String.eqb (Error err) "validation failed"
               then StatusBadRequest else StatusInternalServerError))
     | None =>
       ret (Encode [("message", "Data saved successfully"); ("status", "success")]
              (WriteHeader StatusOK (Header_Set "Content-Type" "application/json" w)))
     end) world.
Proof.
  intros Hdecode. unfold HTTPHandler.HandleSaveData, request, ReadAll. simpl.
  by rewrite Hdecode.
Qed.

(** Whatever request fails validation, the handler answers 500: the error the
    service returns carries the validator's detail after the prefix, so it
    never equals the text the handler tests for. *)
Lemma HandleSaveData_validation_failure
  (h : HTTPHandler) (w : ResponseWriter) (body : bytes) (req : SaveRequest) (err : error)
  (world : World) :
  json.Unmarshal body zero_SaveRequest = (req, None) →
  RequestValidator.ValidateRequest (validator (dataService h)) req = Some err →
  HTTPHandler.HandleSaveData h w (request MethodPost body) world
  = (Ok (http_Error w ("validation failed: " +:+ Error err) StatusInternalServerError), world).
Proof.
  intros Hdecode Hinvalid. rewrite (HandleSaveData_decoded h w body req) by done.
  unfold DataService.SaveData, bind. rewrite Hinvalid. reflexivity.
Qed.

(** C1 fails on the code.  Each of the three requests below decodes to a
    request that fails validation (empty payload, empty storage kind,
    unrecognized storage kind), and each is answered 500 Internal Server
    Error, with the validation detail in the body, where 400 Bad Request is
    claimed. *)
Theorem validation_failures_answered_500 :
  (rejected_by_validator (save_body EmptyString "file") "data cannot be empty" ∧
   answers (handler the_server) running_world (request "POST" (save_body EmptyString "file"))
     StatusInternalServerError ("validation failed: data cannot be empty" +:+ nl)
     running_world) ∧
  (rejected_by_validator (save_body "SGVsbG8=" EmptyString) "storage type cannot be empty" ∧
   answers (handler the_server) running_world (request "POST" (save_body "SGVsbG8=" EmptyString))
     StatusInternalServerError ("validation failed: storage type cannot be empty" +:+ nl)
     running_world) ∧
  (rejected_by_validator (save_body "SGVsbG8=" "redis") "invalid storage type: redis" ∧
   answers (handler the_server) running_world (request "POST" (save_body "SGVsbG8=" "redis"))
     StatusInternalServerError ("validation failed: invalid storage type: redis" +:+ nl)
     running_world) ∧
  StatusInternalServerError ≠ StatusBadRequest.
Proof.
  assert (∀ data kind req err,
            json.Unmarshal (save_body data kind) zero_SaveRequest = (req, None) →
            RequestValidator.ValidateRequest NewRequestValidator req = Some err →
            rejected_by_validator (save_body data kind) (Error err) ∧
            answers (handler the_server) running_world (request "POST" (save_body data kind))
              StatusInternalServerError ("validation failed: " +:+ Error err +:+ nl)
              running_world) as Hcase.
  { intros data kind req err Hdecode Hinvalid. split.
    - by exists req, err.
    - eexists. split; [by apply (HandleSaveData_validation_failure _ _ _ req err)|].
      split; [reflexivity|]. by rewrite http_Error_body. }
  split; [|split; [|split]].
  - apply (Hcase EmptyString "file" (mkSaveRequest EmptyString "file") (errorString "data cannot be empty"));
      by vm_compute.
  - apply (Hcase "SGVsbG8=" EmptyString (mkSaveRequest "Hello" EmptyString)
             (errorString "storage type cannot be empty")); by vm_compute.
  - apply (Hcase "SGVsbG8=" "redis" (mkSaveRequest "Hello" "redis")
             (errorString "invalid storage type: redis")); by vm_compute.
  - discriminate.
Qed.

(** C2 fails on the code.  The kind [memory] is in neither the validator's
    list nor the factory's switch, so the POST of [Hello] for [memory] is
    rejected by the validator and answered 500 with the validation detail;
    the world is left as it was, and nothing holds the bytes [Hello]. *)
Theorem memory_kind_is_rejected :
  base64.Decode "SGVsbG8=" = Some "Hello" ∧
  ¬ recognized "memory" ∧
  (∀ f, ConcreteStorageFactory.CreateStorage f "memory"
        = inr (errorString "unsupported storage type: memory")) ∧
  rejected_by_validator (save_body "SGVsbG8=" "memory") "invalid storage type: memory" ∧
  answers (handler the_server) running_world (request "POST" (save_body "SGVsbG8=" "memory"))
    StatusInternalServerError ("validation failed: invalid storage type: memory" +:+ nl)
    running_world ∧
  StatusInternalServerError ≠ StatusOK ∧
  files running_world = ∅.
Proof.
  split; [by vm_compute|].
  split; [apply (bool_decide_eq_false_1 _); reflexivity|].
  split; [reflexivity|].
  assert (json.Unmarshal (save_body "SGVsbG8=" "memory") zero_SaveRequest
          = (mkSaveRequest "Hello" "memory", None)) as Hdecode by (by vm_compute).
  split.
  { exists (mkSaveRequest "Hello" "memory"), (errorString "invalid storage type: memory").
    split; [exact Hdecode|]. split; reflexivity. }
  split.
  { eexists. split.
    - apply (HandleSaveData_validation_failure _ _ _ (mkSaveRequest "Hello" "memory")
               (errorString "invalid storage type: memory")); [exact Hdecode|reflexivity].
    - split; reflexivity. }
  split; [discriminate|reflexivity].
Qed.

Lemma append_inv_head (p a b : string) : p +:+ a = p +:+ b → a = b.
Proof. induction p as [|c p IH]; simpl; [done|]. intros [= H]. by apply IH. Qed.

Lemma store_members_omitted (members : list (string * json.value)) (req : SaveRequest)
  (saved : option error) :
  omits_fields members = true → json.store_members members req saved = (req, saved).
Proof.
  induction members as [|[key v] members IH]; simpl; [done|].
  intros Hall. apply andb_true_iff in Hall as [Hkey Hrest].
  destruct (json.lookup_field key); [discriminate|]. by apply IH.
Qed.

(** C10.  A body that is a valid JSON object none of whose members names a
    field of the request (the body of two braces for one) passes the decode
    step without error and decodes to the request with empty payload and
    empty storage kind; the validator rejects that request by its
    empty-payload rule; and the handler's response body carries the validation
    detail, not the text [Invalid JSON format]. *)
Theorem body_without_fields_fails_validation
  (h : HTTPHandler) (w : ResponseWriter) (body : bytes) (members : list (string * json.value))
  (world : World) :
  json.parse body = Some (json.JObject members) →
  omits_fields members = true →
  json.Unmarshal body zero_SaveRequest = (zero_SaveRequest, None) ∧
  RequestValidator.ValidateRequest (validator (dataService h)) zero_SaveRequest
    = Some (errorString "data cannot be empty") ∧
  ∃ response,
    HTTPHandler.HandleSaveData h w (request "POST" body) world = (Ok response, world) ∧
    rw_body response = rw_body w +:+ "validation failed: data cannot be empty" +:+ nl ∧
    rw_body response ≠ rw_body w +:+ "Invalid JSON format" +:+ nl.
Proof.
  intros Hparse Homits.
  assert (json.Unmarshal body zero_SaveRequest = (zero_SaveRequest, None)) as Hdecode.
  { unfold json.Unmarshal. rewrite Hparse. simpl. by apply store_members_omitted. }
  split; [exact Hdecode|]. split; [reflexivity|].
  eexists. split.
  - by apply (HandleSaveData_validation_failure h w body zero_SaveRequest
                (errorString "data cannot be empty")).
  - rewrite http_Error_body. split; [reflexivity|].
    intros Heq. apply append_inv_head in Heq. discriminate.
Qed.

Lemma body_without_fields_fails_validation_witness :
  json.parse "{}" = Some (json.JObject []) ∧
  omits_fields [] = true ∧
  json.Unmarshal "{}" zero_SaveRequest = (zero_SaveRequest, None) ∧
  RequestValidator.ValidateRequest (validator (dataService (handler the_server)))
    zero_SaveRequest = Some (errorString "data cannot be empty") ∧
  ∃ response,
    HTTPHandler.HandleSaveData (handler the_server) NewRecorder (request "POST" "{}")
      running_world = (Ok response, running_world) ∧
    rw_body response
      = rw_body NewRecorder +:+ "validation failed: data cannot be empty" +:+ nl ∧
    rw_body response ≠ rw_body NewRecorder +:+ "Invalid JSON format" +:+ nl.
Proof.
  split; [reflexivity|]. split; [reflexivity|].
  apply (body_without_fields_fails_validation (handler the_server) NewRecorder "{}" []
           running_world); reflexivity.
Defined.

(** ** The original handler *)

(** C8 fails on main.go.  Its handler never looks at the method: the answer
    and the world it leaves are the same for every method, and a GET that
    carries a save request for [file] is answered 200 after [data.txt] has
    been created with the payload, where 405 and no side effect are
    claimed. *)
Theorem Original_handler_serves_GET :
  (∀ w method method' body world,
     Original.DataHandler.HandleSaveData w (mkRequest method body) world
     = Original.DataHandler.HandleSaveData w (mkRequest method' body) world) ∧
  "GET" ≠ MethodPost ∧
  files empty_world !! "data.txt" = None ∧
  ∃ response world',
    Original.DataHandler.HandleSaveData NewRecorder
      (request "GET" (save_body "SGVsbG8=" "file")) empty_world = (Ok response, world') ∧
    rw_status response = Some StatusOK ∧
    rw_status response ≠ Some StatusMethodNotAllowed ∧
    rw_body response = "Data saved successfully" ∧
    files world' !! "data.txt" = Some "Hello".
Proof.
  split; [reflexivity|]. split; [discriminate|]. split; [reflexivity|].
  eexists. eexists. split; [by vm_compute|].
  split; [reflexivity|]. split; [discriminate|]. split; reflexivity.
Qed.

(** ** The two handlers side by side *)

(** The refactored handler refuses the GET that the original one serves: 405,
    and the world is left without [data.txt]. *)
Lemma HandleSaveData_refuses_GET :
  answers (handler the_server) running_world (request "GET" (save_body "SGVsbG8=" "file"))
    StatusMethodNotAllowed ("Method not allowed" +:+ nl) running_world ∧
  files running_world !! "data.txt" = None.
Proof.
  split; [|reflexivity]. eexists. split.
  - apply HandleSaveData_method_not_allowed. discriminate.
  - split; reflexivity.
Qed.

(** The POST of [Hello] for [file] is answered 200 with the JSON body, and
    [data.txt] then holds [Hello]. *)
Lemma HandleSaveData_saves_to_file :
  ∃ world',
    answers (handler the_server) running_world (request "POST" (save_body "SGVsbG8=" "file"))
      StatusOK
      ("{" +:+ quoted "message" +:+ ":" +:+ quoted "Data saved successfully" +:+ ","
           +:+ quoted "status" +:+ ":" +:+ quoted "success" +:+ "}" +:+ nl)
      world' ∧
    files world' !! "data.txt" = Some "Hello".
Proof.
  eexists. split.
  - eexists. split; [by vm_compute|]. split; reflexivity.
  - reflexivity.
Qed.

(** A file that cannot be created is a persistence failure as well. *)
Lemma SaveData_file_may_fail :
  let world := mkWorld ∅ {[ "data.txt" := "permission denied" ]} ∅ [] ∅ in
  outcome (DataService.SaveData the_service (mkSaveRequest "Hello" "file") world)
    = Some (PersistenceError
              "failed to create file: open data.txt: permission denied") ∧
  snd (DataService.SaveData the_service (mkSaveRequest "Hello" "file") world) = world.
Proof. split; reflexivity. Qed.

(** * Further properties of the code *)

(** ** What a call may change *)

Lemma touches_only_refl (path : string) (w : World) : touches_only path w w.
Proof.
  repeat split. exists []. by rewrite app_nil_r.
Qed.

Lemma touches_only_trans (path : string) (w1 w2 w3 : World) :
  touches_only path w1 w2 → touches_only path w2 w3 → touches_only path w1 w3.
Proof.
  intros (Hh & Hc & Hw & Hf & out & Ho) (Hh' & Hc' & Hw' & Hf' & out' & Ho').
  repeat split; try congruence.
  - intros p Hp. rewrite Hf' by done. by apply Hf.
  - exists (out ++ out'). by rewrite Ho', Ho, app_assoc.
Qed.

Lemma touches_only_stdout (path : string) (w : World) (out : list string) :
  touches_only path w (set_stdout (λ old, old ++ out) w).
Proof. repeat split. by exists out. Qed.

Lemma touches_only_file (path : string) (w : World) (content : bytes) :
  touches_only path w (set_files (insert path content) w).
Proof.
  repeat split.
  - intros p Hp. simpl. by rewrite lookup_insert_ne.
  - exists []. by rewrite app_nil_r.
Qed.

(** ** The file strategy *)

Lemma FileStorage_Save_eq (fs : FileStorage) (data : bytes) (w : World) :
  FileStorage.Save fs data w =
  match create_fault w !! filename fs with
  | Some reason =>
    (Ok (Some (Errorf_w "failed to create file: " (PathError "open" (filename fs) reason))), w)
  | None =>
    if writes_in_full w (filename fs) data then (Ok None, file_saved (filename fs) data w)
    else
      match write_fault w !! filename fs with
      | Some (room, reason) =>
        (Ok (Some (Errorf_w "failed to write to file: "
                     (PathError "write" (filename fs) reason))),
         set_files (insert (filename fs) (String.substring 0 room data)) w)
      | None => (Ok None, file_saved (filename fs) data w)
      end
  end.
Proof.
  unfold FileStorage.Save, bind, Create, File_Write, Println, Printf, ret, writes_in_full,
    file_saved.
  destruct (create_fault w !! filename fs) as [reason|] eqn:Hcreate; [reflexivity|].
  simpl. rewrite lookup_insert_eq. simpl.
  assert (∀ content, set_files (insert (filename fs) content)
                       (set_files (insert (filename fs) EmptyString) w)
                     = set_files (insert (filename fs) content) w) as Htwice.
  { intros content. unfold set_files. simpl. by rewrite insert_insert_eq. }
  destruct (write_fault w !! filename fs) as [[room reason]|] eqn:Hfault; simpl.
  - destruct (decide (String.length data ≤ room)) as [Hle|Hgt]; simpl.
    + apply Nat.leb_le in Hle. rewrite Hle. by rewrite Htwice.
    + apply Nat.leb_nle in Hgt. rewrite Hgt. by rewrite Htwice.
  - by rewrite Htwice.
Qed.

(** X1.  Saving to a file overwrites: when the file can be created and both
    writes go through in full, two saves one after the other both return no
    error and leave the file holding exactly the second payload; what the
    file held before and the first payload are gone. *)
Theorem FileStorage_Save_last_write_wins (fs : FileStorage) (first second : bytes) (w : World) :
  create_fault w !! filename fs = None →
  writes_in_full w (filename fs) first = true →
  writes_in_full w (filename fs) second = true →
  ∃ w1 w2,
    FileStorage.Save fs first w = (Ok None, w1) ∧
    FileStorage.Save fs second w1 = (Ok None, w2) ∧
    files w1 !! filename fs = Some first ∧
    files w2 !! filename fs = Some second ∧
    files w2 = files (snd (FileStorage.Save fs second w)).
Proof.
  intros Hcreate Hfirst Hsecond.
  exists (file_saved (filename fs) first w),
         (file_saved (filename fs) second (file_saved (filename fs) first w)).
  assert (FileStorage.Save fs first w = (Ok None, file_saved (filename fs) first w)) as H1.
  { rewrite FileStorage_Save_eq, Hcreate. by rewrite Hfirst. }
  assert (FileStorage.Save fs second (file_saved (filename fs) first w)
          = (Ok None, file_saved (filename fs) second (file_saved (filename fs) first w)))
    as H2.
  { rewrite FileStorage_Save_eq. simpl. rewrite Hcreate.
    change (writes_in_full (file_saved (filename fs) first w) (filename fs) second)
      with (writes_in_full w (filename fs) second).
    by rewrite Hsecond. }
  split; [exact H1|]. split; [exact H2|].
  split; [simpl; apply lookup_insert_eq|].
  split; [simpl; apply lookup_insert_eq|].
  rewrite FileStorage_Save_eq, Hcreate, Hsecond. simpl. by rewrite insert_insert_eq.
Qed.

Lemma FileStorage_Save_last_write_wins_witness :
  create_fault running_world !! "data.txt" = None ∧
  writes_in_full running_world "data.txt" "Hello" = true ∧
  writes_in_full running_world "data.txt" "Hi" = true ∧
  ∃ w1 w2,
    FileStorage.Save (mkFileStorage "data.txt") "Hello" running_world = (Ok None, w1) ∧
    FileStorage.Save (mkFileStorage "data.txt") "Hi" w1 = (Ok None, w2) ∧
    files w1 !! "data.txt" = Some "Hello" ∧
    files w2 !! "data.txt" = Some "Hi" ∧
    files w2 = files (snd (FileStorage.Save (mkFileStorage "data.txt") "Hi" running_world)).
Proof.
  split; [reflexivity|]. split; [reflexivity|]. split; [reflexivity|].
  apply (FileStorage_Save_last_write_wins (mkFileStorage "data.txt") "Hello" "Hi"
           running_world); reflexivity.
Defined.

(** X2.  When the file cannot be created, the save returns an error that
    wraps the system's error, with the text
    [failed to create file: open <path>: <reason>], and leaves the world as
    it was: no file is created or truncated and nothing is printed. *)
Theorem FileStorage_Save_create_refused
  (fs : FileStorage) (data : bytes) (reason : string) (w : World) :
  create_fault w !! filename fs = Some reason →
  ∃ err,
    FileStorage.Save fs data w = (Ok (Some err), w) ∧
    Error err = "failed to create file: open " +:+ filename fs +:+ ": " +:+ reason ∧
    Unwrap err = Some (PathError "open" (filename fs) reason).
Proof.
  intros Hcreate. eexists. rewrite FileStorage_Save_eq, Hcreate.
  split; [reflexivity|]. split; reflexivity.
Qed.

Lemma FileStorage_Save_create_refused_witness :
  let w := mkWorld {[ "data.txt" := "old" ]} {[ "data.txt" := "permission denied" ]} ∅ [] ∅ in
  create_fault w !! "data.txt" = Some "permission denied" ∧
  ∃ err,
    FileStorage.Save (mkFileStorage "data.txt") "Hello" w = (Ok (Some err), w) ∧
    Error err = "failed to create file: open " +:+ "data.txt" +:+ ": " +:+ "permission denied" ∧
    Unwrap err = Some (PathError "open" "data.txt" "permission denied").
Proof.
  split; [reflexivity|].
  apply (FileStorage_Save_create_refused (mkFileStorage "data.txt") "Hello" "permission denied").
  reflexivity.
Defined.

(** X3.  A save is not atomic: when the file is created but the write stops
    short, the save returns an error with the text
    [failed to write to file: write <path>: <reason>], the success line is
    not printed, and the file is left holding only the bytes that were
    written, whatever it held before. *)
Theorem FileStorage_Save_short_write
  (fs : FileStorage) (data : bytes) (room : nat) (reason : string) (w : World) :
  create_fault w !! filename fs = None →
  write_fault w !! filename fs = Some (room, reason) →
  room < String.length data →
  ∃ err w',
    FileStorage.Save fs data w = (Ok (Some err), w') ∧
    Error err = "failed to write to file: write " +:+ filename fs +:+ ": " +:+ reason ∧
    files w' !! filename fs = Some (String.substring 0 room data) ∧
    stdout w' = stdout w.
Proof.
  intros Hcreate Hfault Hshort. eexists. eexists.
  rewrite FileStorage_Save_eq, Hcreate. unfold writes_in_full. rewrite Hfault.
  assert ((String.length data <=? room) = false) as -> by (apply Nat.leb_gt; lia).
  split; [reflexivity|]. split; [reflexivity|].
  split; [simpl; apply lookup_insert_eq|reflexivity].
Qed.

Lemma FileStorage_Save_short_write_witness :
  let w := mkWorld {[ "data.txt" := "previous content" ]} ∅
             {[ "data.txt" := (2, "no space left on device") ]} [] ∅ in
  create_fault w !! "data.txt" = None ∧
  write_fault w !! "data.txt" = Some (2, "no space left on device") ∧
  2 < String.length "Hello" ∧
  ∃ err w',
    FileStorage.Save (mkFileStorage "data.txt") "Hello" w = (Ok (Some err), w') ∧
    Error err = "failed to write to file: write " +:+ "data.txt" +:+ ": "
                +:+ "no space left on device" ∧
    files w' !! "data.txt" = Some (String.substring 0 2 "Hello") ∧
    stdout w' = stdout w.
Proof.
  split; [reflexivity|]. split; [reflexivity|]. split; [simpl; lia|].
  apply (FileStorage_Save_short_write (mkFileStorage "data.txt") "Hello" 2
           "no space left on device"); [reflexivity|reflexivity|simpl; lia].
Defined.

(** ** The database connection and its strategy *)

Lemma save_each_connected
  (ds : DatabaseStorage) (l : loc) (c : DatabaseConnection) (payloads : list bytes) (w : World) :
  db ds = Some l → heap w !! l = Some c → connected c = true →
  save_each ds payloads w
  = (Ok (map (λ _, None) payloads),
     set_stdout (λ out, out ++ map (saving_line c) payloads) w).
Proof.
  intros Hdb. revert w. induction payloads as [|payload payloads IH]; intros w Hl Hc.
  { simpl. unfold ret, set_stdout. rewrite app_nil_r. by destruct w. }
  simpl. unfold bind at 1. unfold DatabaseStorage.Save.
  rewrite Hdb, (DatabaseConnection_Save_eq l c) by done. rewrite Hc.
  unfold bind at 1. rewrite IH by done. unfold ret, set_stdout. simpl.
  by rewrite <- app_assoc.
Qed.

(** X4.  Through a connection that is connected every save succeeds, however
    many are made: the payloads are handed to the write primitive in order,
    each exactly once, and the connection, still connected, and the files are
    left as they were. *)
Theorem DatabaseStorage_Save_sequence
  (ds : DatabaseStorage) (l : loc) (c : DatabaseConnection) (payloads : list bytes) (w : World) :
  db ds = Some l → heap w !! l = Some c → connected c = true →
  ∃ w',
    save_each ds payloads w = (Ok (map (λ _, None) payloads), w') ∧
    stdout w' = stdout w ++ map (saving_line c) payloads ∧
    heap w' = heap w ∧
    files w' = files w.
Proof.
  intros Hdb Hl Hc. eexists. split; [by apply (save_each_connected ds l c)|].
  repeat split.
Qed.

Lemma DatabaseStorage_Save_sequence_witness :
  heap running_world !! 0 = Some the_connection ∧
  connected the_connection = true ∧
  ∃ w',
    save_each (mkDatabaseStorage (Some 0)) ["Hello"; EmptyString; "World"] running_world
      = (Ok (map (λ _, None) ["Hello"; EmptyString; "World"]), w') ∧
    stdout w' = stdout running_world
                ++ map (saving_line the_connection) ["Hello"; EmptyString; "World"] ∧
    heap w' = heap running_world ∧
    files w' = files running_world.
Proof.
  split; [reflexivity|]. split; [reflexivity|].
  apply (DatabaseStorage_Save_sequence (mkDatabaseStorage (Some 0)) 0 the_connection);
    reflexivity.
Defined.

(** X5.  Closing is idempotent and touches one connection only: closing a
    connection twice returns no error both times and leaves the heap as one
    close does, with that connection's flag false and its other fields
    kept; every other connection and every file is left as it was. *)
Theorem Close_idempotent (l : loc) (c : DatabaseConnection) (w : World) :
  heap w !! l = Some c →
  ∃ w1 w2,
    DatabaseConnection.Close (Some l) w = (Ok None, w1) ∧
    DatabaseConnection.Close (Some l) w1 = (Ok None, w2) ∧
    heap w2 = heap w1 ∧
    heap w1 !! l = Some (mkDatabaseConnection (Host c) (Port c) (Username c) (Password c)
                           (DBName c) false) ∧
    (∀ l', l' ≠ l → heap w2 !! l' = heap w !! l') ∧
    files w2 = files w.
Proof.
  intros Hl.
  pose proof (DatabaseConnection_Close_eq l c w Hl) as H1.
  set (w1 := set_heap (insert l (disconnect c))
               (set_stdout (λ out, out ++ ["Closing database connection to "
                                            +:+ DBName c +:+ nl]) w)) in *.
  assert (heap w1 !! l = Some (disconnect c)) as Hl1 by (simpl; apply lookup_insert_eq).
  pose proof (DatabaseConnection_Close_eq l (disconnect c) w1 Hl1) as H2.
  eexists. eexists. split; [exact H1|]. split; [exact H2|].
  split; [simpl; by rewrite insert_insert_eq|].
  split; [exact Hl1|].
  split; [|reflexivity].
  intros l' Hne. simpl. by rewrite insert_insert_eq, lookup_insert_ne.
Qed.

Lemma Close_idempotent_witness :
  heap running_world !! 0 = Some the_connection ∧
  ∃ w1 w2,
    DatabaseConnection.Close (Some 0) running_world = (Ok None, w1) ∧
    DatabaseConnection.Close (Some 0) w1 = (Ok None, w2) ∧
    heap w2 = heap w1 ∧
    heap w1 !! 0 = Some (mkDatabaseConnection (Host the_connection) (Port the_connection)
                           (Username the_connection) (Password the_connection)
                           (DBName the_connection) false) ∧
    (∀ l', l' ≠ 0 → heap w2 !! l' = heap running_world !! l') ∧
    files w2 = files running_world.
Proof.
  split; [reflexivity|].
  apply (Close_idempotent 0 the_connection running_world). reflexivity.
Defined.

Lemma NewDatabaseConnection_eq (host : string) (port : Z) (username password dbName : string)
  (w : World) :
  NewDatabaseConnection host port username password dbName w
  = (Ok (Some (fresh (dom (heap w))), None),
     set_stdout (λ out, out ++ ["Successfully connected to database: " +:+ dbName +:+ nl])
       (set_heap (insert (fresh (dom (heap w)))
                    (mkDatabaseConnection host port username password dbName true))
          (set_stdout (λ out, out ++ ["Establishing database connection to " +:+ host +:+ ":"
                                       +:+ pretty port +:+ "..." +:+ nl]) w))).
Proof. reflexivity. Qed.

Lemma fresh_location_unused (w : World) : heap w !! fresh (dom (heap w)) = None.
Proof. apply not_elem_of_dom. apply is_fresh. Qed.

(** X6.  Opening a connection never fails and never disturbs the connections
    that exist: it returns a non-nil pointer to a location that was unused,
    the connection there is connected and carries the given parameters, every
    other location and every file is as before, and a save through the new
    connection succeeds. *)
Theorem NewDatabaseConnection_fresh
  (host : string) (port : Z) (username password dbName : string) (w : World) :
  ∃ l w',
    NewDatabaseConnection host port username password dbName w = (Ok (Some l, None), w') ∧
    heap w !! l = None ∧
    heap w' !! l = Some (mkDatabaseConnection host port username password dbName true) ∧
    (∀ l', l' ≠ l → heap w' !! l' = heap w !! l') ∧
    files w' = files w ∧
    ∀ payload, fst (DatabaseStorage.Save (mkDatabaseStorage (Some l)) payload w') = Ok None.
Proof.
  exists (fresh (dom (heap w))). eexists.
  split; [apply NewDatabaseConnection_eq|].
  split; [apply fresh_location_unused|].
  split; [simpl; apply lookup_insert_eq|].
  split; [intros l' Hne; simpl; by rewrite lookup_insert_ne|].
  split; [reflexivity|].
  intros payload. unfold DatabaseStorage.Save. simpl.
  erewrite DatabaseConnection_Save_eq; [|simpl; apply lookup_insert_eq]. reflexivity.
Qed.

(** ** The factory *)

(** X7.  The factory creates a storage exactly for the kind [file], and for
    the kind [database] when it holds a connection; the comparison is exact.
    A file storage always targets [data.txt]; a database storage always
    carries the factory's own connection, never a nil one; and a refusal is
    either [database connection not available] or
    [unsupported storage type: <kind>]. *)
Theorem CreateStorage_cases (f : ConcreteStorageFactory) (kind : string) :
  ((∃ s, ConcreteStorageFactory.CreateStorage f kind = inl s)
   ↔ kind = "file" ∨ (kind = "database" ∧ database f ≠ None)) ∧
  (∀ fs, ConcreteStorageFactory.CreateStorage f kind = inl (OfFileStorage fs) →
         kind = "file" ∧ filename fs = "data.txt") ∧
  (∀ ds, ConcreteStorageFactory.CreateStorage f kind = inl (OfDatabaseStorage ds) →
         kind = "database" ∧ db ds = database f ∧ db ds ≠ None) ∧
  (∀ err, ConcreteStorageFactory.CreateStorage f kind = inr err →
          (kind = "database" ∧ database f = None ∧
           Error err = "database connection not available") ∨
          (kind ≠ "file" ∧ kind ≠ "database" ∧
           Error err = "unsupported storage type: " +:+ kind)).
Proof.
  unfold ConcreteStorageFactory.CreateStorage.
  destruct (String.eqb_spec kind "file") as [->|Hfile].
  { split; [split; [by left|by eexists]|].
    split; [by intros fs [= <-]|]. split; [discriminate|discriminate]. }
  destruct (String.eqb_spec kind "database") as [->|Hdb].
  - destruct (database f) as [l|] eqn:Hl.
    + split; [split; [by right|by eexists]|].
      split; [discriminate|]. split; [|discriminate].
      intros ds [= <-]. by simpl.
    + split; [split; [by intros [s Hs]|by intros [?|[_ ?]]]|].
      split; [discriminate|]. split; [discriminate|].
      intros err [= <-]. by left.
  - split; [split; [by intros [s Hs]|by intros [?|[? _]]]|].
    split; [discriminate|]. split; [discriminate|].
    intros err [= <-]. by right.
Qed.

(** ** The save service *)

Lemma ValidateRequest_accepts (v : RequestValidator) (req : SaveRequest) :
  RequestValidator.ValidateRequest v req = None
  ↔ Data req ≠ EmptyString ∧ (StorageType req = "file" ∨ StorageType req = "database").
Proof.
  pose proof (ValidateRequest_validation v req) as Hrules.
  rewrite <- recognized_cases. split.
  - intros Hnone. rewrite Hnone in Hrules. by inversion Hrules.
  - intros [Hdata Hkind]. inversion Hrules as [| ? Hempty | |]; try congruence.
    rewrite Hempty in Hkind. apply recognized_cases in Hkind. destruct Hkind; discriminate.
Qed.

Lemma available_file (ds : DataService) (w : World) (payload : bytes) :
  available ds w payload "file"
  = match create_fault w !! "data.txt" with
    | None => writes_in_full w "data.txt" payload
    | Some _ => false
    end.
Proof.
  unfold available, writes_in_full. simpl.
  destruct (create_fault w !! "data.txt"); [reflexivity|].
  by destruct (write_fault w !! "data.txt") as [[room reason]|].
Qed.

Lemma SaveData_file (ds : DataService) (req : SaveRequest) (w : World) :
  Data req ≠ EmptyString → StorageType req = "file" →
  DataService.SaveData ds req w
  = (saved <- FileStorage.Save (mkFileStorage "data.txt") (Data req) ;;
     match saved with
     | Some err => ret (Some (Errorf_w "failed to save data: " err))
     | None => ret None
     end) w.
Proof.
  intros Hdata Hkind. unfold DataService.SaveData.
  assert (RequestValidator.ValidateRequest (validator ds) req = None) as ->.
  { apply ValidateRequest_accepts. auto. }
  unfold ConcreteStorageFactory.CreateStorage. by rewrite Hkind.
Qed.

Lemma SaveData_database (ds : DataService) (req : SaveRequest) (w : World) :
  Data req ≠ EmptyString → StorageType req = "database" →
  DataService.SaveData ds req w
  = match database (factory ds) with
    | None =>
      (Ok (Some (Errorf_w "failed to create storage: "
                   (errorString "database connection not available"))), w)
    | Some l =>
      (saved <- DatabaseConnection.Save (Some l) (Data req) ;;
       match saved with
       | Some err => ret (Some (Errorf_w "failed to save data: " err))
       | None => ret None
       end) w
    end.
Proof.
  intros Hdata Hkind. unfold DataService.SaveData.
  assert (RequestValidator.ValidateRequest (validator ds) req = None) as ->.
  { apply ValidateRequest_accepts. auto. }
  unfold ConcreteStorageFactory.CreateStorage. rewrite Hkind. simpl.
  by destruct (database (factory ds)).
Qed.

Lemma SaveData_invalid (ds : DataService) (req : SaveRequest) (w : World) :
  ¬ (Data req ≠ EmptyString ∧ (StorageType req = "file" ∨ StorageType req = "database")) →
  ∃ err, RequestValidator.ValidateRequest (validator ds) req = Some err ∧
         DataService.SaveData ds req w = (Ok (Some (Errorf_w "validation failed: " err)), w).
Proof.
  intros Hinvalid. unfold DataService.SaveData.
  destruct (RequestValidator.ValidateRequest (validator ds) req) as [err|] eqn:Hv.
  - by exists err.
  - apply ValidateRequest_accepts in Hv. contradiction.
Qed.

Lemma DatabaseConnection_Save_cases (p : ptr) (data : bytes) (w : World) :
  (∃ msg, DatabaseConnection.Save p data w = (Panic msg, w) ∧
          ∀ l c, p = Some l → heap w !! l = Some c → False) ∨
  (∃ l c, p = Some l ∧ heap w !! l = Some c ∧ connected c = false ∧
          DatabaseConnection.Save p data w = (Ok (Some not_established), w)) ∨
  (∃ l c, p = Some l ∧ heap w !! l = Some c ∧ connected c = true ∧
          DatabaseConnection.Save p data w
          = (Ok None, set_stdout (λ out, out ++ [saving_line c data]) w)).
Proof.
  destruct p as [l|].
  - destruct (heap w !! l) as [c|] eqn:Hl.
    + destruct (connected c) eqn:Hc.
      * right. right. exists l, c. rewrite (DatabaseConnection_Save_eq l c) by done.
        by rewrite Hc.
      * right. left. exists l, c. rewrite (DatabaseConnection_Save_eq l c) by done.
        by rewrite Hc.
    + left. exists nil_dereference. split.
      * unfold DatabaseConnection.Save, bind, load. by rewrite Hl.
      * intros l' c [= <-]. congruence.
  - left. exists nil_dereference. split; [reflexivity|]. discriminate.
Qed.

(** X8.  The service succeeds exactly when the request is acceptable and its
    backend can take the payload: [SaveData] returns no error if and only if
    the payload is non-empty and either the kind is [file] and [data.txt] can
    be created and written in full, or the kind is [database] and the factory
    holds a connection that is connected. *)
Theorem SaveData_succeeds_iff (ds : DataService) (req : SaveRequest) (w : World) :
  fst (DataService.SaveData ds req w) = Ok None
  ↔ Data req ≠ EmptyString ∧ available ds w (Data req) (StorageType req) = true.
Proof.
  destruct (decide (Data req = EmptyString)) as [Hempty|Hdata].
  { destruct (SaveData_invalid ds req w) as (err & _ & ->); [tauto|].
    simpl. split; [discriminate|tauto]. }
  destruct (decide (StorageType req = "file")) as [Hfile|Hnofile].
  { rewrite SaveData_file by done. rewrite Hfile, available_file.
    unfold bind. rewrite FileStorage_Save_eq. simpl.
    destruct (create_fault w !! "data.txt") as [reason|]; simpl.
    - split; [discriminate|]. by intros [_ ?].
    - destruct (writes_in_full w "data.txt" (Data req)) eqn:Hfull; simpl; [tauto|].
      unfold writes_in_full in Hfull.
      destruct (write_fault w !! "data.txt") as [[room reason]|]; [|discriminate].
      simpl. split; [discriminate|]. by intros [_ ?]. }
  destruct (decide (StorageType req = "database")) as [Hdb|Hnodb].
  { rewrite SaveData_database by done. rewrite Hdb. unfold available. simpl.
    destruct (database (factory ds)) as [l|]; simpl.
    2:{ split; [discriminate|]. by intros [_ ?]. }
    unfold bind.
    destruct (DatabaseConnection_Save_cases (Some l) (Data req) w)
      as [(msg & -> & Hnone)|[(l' & c & [= <-] & Hl & Hc & ->)|(l' & c & [= <-] & Hl & Hc & ->)]];
      simpl.
    - destruct (heap w !! l) as [c|] eqn:Hl; [by destruct (Hnone l c)|].
      split; [discriminate|]. by intros [_ ?].
    - rewrite Hl, Hc. split; [discriminate|]. by intros [_ ?].
    - rewrite Hl, Hc. tauto. }
  destruct (SaveData_invalid ds req w) as (err & _ & ->); [tauto|].
  simpl. split; [discriminate|]. intros [_ Havail]. unfold available in Havail.
  destruct (String.eqb_spec (StorageType req) "file"); [contradiction|].
  destruct (String.eqb_spec (StorageType req) "database"); [contradiction|discriminate].
Qed.

(** X9.  The service fails at the factory only for want of a connection: its
    outcome is the storage-creation failure if and only if the payload is
    non-empty, the kind is [database] and the factory holds no connection;
    the detail is then [database connection not available] and the world is
    left as it was.  The factory's answer for an unknown kind never comes
    out of [SaveData], since the validator has rejected every such kind. *)
Theorem SaveData_creation_failure (ds : DataService) (req : SaveRequest) (w : World) :
  ((∃ detail, outcome (DataService.SaveData ds req w) = Some (UnsupportedStorageKind detail))
   ↔ Data req ≠ EmptyString ∧ StorageType req = "database" ∧ database (factory ds) = None) ∧
  (∀ detail, outcome (DataService.SaveData ds req w) = Some (UnsupportedStorageKind detail) →
             detail = "database connection not available" ∧
             snd (DataService.SaveData ds req w) = w).
Proof.
  assert (∀ (call : M (option error)) detail,
            outcome ((saved <- call ;;
                      match saved with
                      | Some err => ret (Some (Errorf_w "failed to save data: " err))
                      | None => ret None
                      end) w) ≠ Some (UnsupportedStorageKind detail)) as Hpersist.
  { intros call detail. unfold outcome, bind, ret.
    by destruct (call w) as [[[err|]|msg] w']. }
  assert (∀ err detail,
            outcome (Ok (Some (Errorf_w "validation failed: " err)), w)
            ≠ Some (UnsupportedStorageKind detail)) as Hinvalid.
  { intros err detail.
    change (outcome (Ok (Some (Errorf_w "validation failed: " err)), w))
      with (classify (Some (Errorf_w "validation failed: " err))).
    by rewrite classify_validation. }
  destruct (decide (Data req ≠ EmptyString ∧
                    (StorageType req = "file" ∨ StorageType req = "database")))
    as [[Hdata [Hfile|Hdb]]|Hbad].
  - rewrite SaveData_file by done. split.
    + split; [intros [detail H]; by destruct (Hpersist _ _ H)|].
      intros (_ & Hkind & _). congruence.
    + intros detail H. by destruct (Hpersist _ _ H).
  - rewrite SaveData_database by done.
    destruct (database (factory ds)) as [l|].
    + split.
      * split; [intros [detail H]; by destruct (Hpersist _ _ H)|]. by intros (_ & _ & ?).
      * intros detail H. by destruct (Hpersist _ _ H).
    + split.
      * split; [done|]. intros _. by eexists.
      * intros detail [= <-]. done.
  - destruct (SaveData_invalid ds req w Hbad) as (err & _ & ->). split.
    + split; [intros [detail H]; by destruct (Hinvalid _ _ H)|].
      intros (Hdata & Hkind & _). destruct Hbad. auto.
    + intros detail H. by destruct (Hinvalid _ _ H).
Qed.

(** Whatever the request and the world, [SaveData] changes nothing but the
    file [data.txt] and the standard output. *)
Lemma SaveData_frame (ds : DataService) (req : SaveRequest) (w : World) :
  touches_only "data.txt" w (snd (DataService.SaveData ds req w)).
Proof.
  destruct (decide (Data req ≠ EmptyString ∧
                    (StorageType req = "file" ∨ StorageType req = "database")))
    as [[Hdata [Hfile|Hdb]]|Hbad].
  - rewrite SaveData_file by done. unfold bind. rewrite FileStorage_Save_eq. simpl.
    destruct (create_fault w !! "data.txt"); simpl; [apply touches_only_refl|].
    assert (touches_only "data.txt" w (file_saved "data.txt" (Data req) w)) as Hsaved.
    { eapply touches_only_trans; [apply touches_only_file|apply touches_only_stdout]. }
    destruct (writes_in_full w "data.txt" (Data req)); simpl; [exact Hsaved|].
    destruct (write_fault w !! "data.txt") as [[room reason]|]; simpl;
      [apply touches_only_file|exact Hsaved].
  - rewrite SaveData_database by done.
    destruct (database (factory ds)) as [l|]; [|apply touches_only_refl].
    unfold bind.
    destruct (DatabaseConnection_Save_cases (Some l) (Data req) w)
      as [(msg & -> & _)|[(l' & c & _ & _ & _ & ->)|(l' & c & _ & _ & _ & ->)]]; simpl.
    + apply touches_only_refl.
    + apply touches_only_refl.
    + apply touches_only_stdout.
  - destruct (SaveData_invalid ds req w Hbad) as (err & _ & ->). apply touches_only_refl.
Qed.

(** ** The refactored handler, request by request *)

(** No error of the service has the bare text the handler tests for. *)
Lemma SaveData_error_text (ds : DataService) (req : SaveRequest) (w w' : World) (err : error) :
  DataService.SaveData ds req w = (Ok (Some err), w') →
  String.eqb (Error err) "validation failed" = false.
Proof.
  unfold DataService.SaveData.
  destruct (RequestValidator.ValidateRequest (validator ds) req) as [e|].
  { intros [= <- _]. apply wrapped_validation_not_bare. }
  destruct (ConcreteStorageFactory.CreateStorage (factory ds) (StorageType req)) as [s|e].
  2:{ by intros [= <- _]. }
  unfold bind, ret.
  destruct (StorageInterface.Save s (Data req) w) as [[[e|]|msg] w1]; [|discriminate..].
  by intros [= <- _].
Qed.

Lemma HandleSaveData_eq (h : HTTPHandler) (w : ResponseWriter) (r : Request) (world : World) :
  HTTPHandler.HandleSaveData h w r world =
  if negb (String.eqb (Method r) MethodPost)
  then (Ok (http_Error w "Method not allowed" StatusMethodNotAllowed), world)
  else match snd (Body r) with
  | Some _ => (Ok (http_Error w "Failed to read body" StatusBadRequest), world)
  | None =>
    match json.Unmarshal (fst (Body r)) zero_SaveRequest with
    | (_, Some _) => (Ok (http_Error w "Invalid JSON format" StatusBadRequest), world)
    | (req, None) =>
      match DataService.SaveData (dataService h) req world with
      | (Ok (Some err), world') =>
        (Ok (http_Error w (Error err) StatusInternalServerError), world')
      | (Ok None, world') => (Ok (success_response w), world')
      | (Panic msg, world') => (Panic msg, world')
      end
    end
  end.
Proof.
  unfold HTTPHandler.HandleSaveData, ReadAll.
  destruct (negb (String.eqb (Method r) MethodPost)); [reflexivity|].
  destruct (Body r) as [body [read_err|]]; simpl; [reflexivity|].
  destruct (json.Unmarshal body zero_SaveRequest) as [req [decode_err|]]; [reflexivity|].
  unfold bind.
  destruct (DataService.SaveData (dataService h) req world) as [[[err|]|msg] world'] eqn:Hsave;
    try reflexivity.
  by rewrite (SaveData_error_text _ _ _ _ _ Hsave).
Qed.

Lemma HandleSaveData_frame (h : HTTPHandler) (w : ResponseWriter) (r : Request) (world : World) :
  touches_only "data.txt" world (snd (HTTPHandler.HandleSaveData h w r world)).
Proof.
  rewrite HandleSaveData_eq.
  destruct (negb (String.eqb (Method r) MethodPost)); [apply touches_only_refl|].
  destruct (snd (Body r)); [apply touches_only_refl|].
  destruct (json.Unmarshal (fst (Body r)) zero_SaveRequest) as [req [decode_err|]];
    [apply touches_only_refl|].
  pose proof (SaveData_frame (dataService h) req world) as Hframe.
  by destruct (DataService.SaveData (dataService h) req world) as [[[err|]|msg] world'].
Qed.

(** X10.  However many requests the refactored handler serves, and whatever
    they are, it changes nothing but the file [data.txt] and the standard
    output, to which it only appends: no request opens, closes or alters a
    connection, and no other file is created or written. *)
Theorem HandleSaveData_requests_touch_only_data_txt
  (h : HTTPHandler) (rs : list Request) (world : World) :
  touches_only "data.txt" world (snd (handle_each (HTTPHandler.HandleSaveData h) rs world)).
Proof.
  revert world. induction rs as [|r rs IH]; intros world; [apply touches_only_refl|].
  simpl. unfold bind at 1.
  pose proof (HandleSaveData_frame h NewRecorder r world) as Hfirst.
  destruct (HTTPHandler.HandleSaveData h NewRecorder r world) as [[response|msg] world1];
    [|exact Hfirst].
  simpl in Hfirst. unfold bind at 1. pose proof (IH world1) as Hrest.
  destruct (handle_each (HTTPHandler.HandleSaveData h) rs world1) as [[responses|msg] world2];
    simpl in *; by eapply touches_only_trans.
Qed.

(** X11.  The status the refactored handler sends on a fresh response writer
    is decided as follows: 405 exactly when the method is not POST (the
    comparison is exact); 400 exactly when the method is POST and the body
    cannot be read or does not decode; 200 exactly when the body decodes to a
    request that the service saves without error; and 500 otherwise.  A
    request answered 405 or 400 leaves the world as it was. *)
Theorem HandleSaveData_status
  (h : HTTPHandler) (w : ResponseWriter) (r : Request) (world world' : World)
  (response : ResponseWriter) :
  rw_status w = None →
  HTTPHandler.HandleSaveData h w r world = (Ok response, world') →
  (rw_status response = Some StatusMethodNotAllowed ↔ Method r ≠ "POST") ∧
  (rw_status response = Some StatusBadRequest
   ↔ Method r = "POST" ∧
     (snd (Body r) ≠ None ∨ snd (json.Unmarshal (fst (Body r)) zero_SaveRequest) ≠ None)) ∧
  (rw_status response = Some StatusOK
   ↔ Method r = "POST" ∧ snd (Body r) = None ∧
     snd (json.Unmarshal (fst (Body r)) zero_SaveRequest) = None ∧
     fst (DataService.SaveData (dataService h)
            (fst (json.Unmarshal (fst (Body r)) zero_SaveRequest)) world) = Ok None) ∧
  (rw_status response = Some StatusMethodNotAllowed ∨ rw_status response = Some StatusBadRequest
   ∨ rw_status response = Some StatusOK ∨ rw_status response = Some StatusInternalServerError) ∧
  (rw_status response = Some StatusMethodNotAllowed ∨ rw_status response = Some StatusBadRequest
   → world' = world).
Proof.
  intros Hfresh. rewrite HandleSaveData_eq.
  assert (∀ text code, rw_status (http_Error w text code) = Some code) as Herror.
  { intros text code. by apply http_Error_status. }
  assert (rw_status (success_response w) = Some StatusOK) as Hsuccess.
  { unfold success_response, Encode, Body_Write, WriteHeader. simpl. by rewrite Hfresh. }
  unfold StatusMethodNotAllowed, StatusBadRequest, StatusOK, StatusInternalServerError,
    MethodPost in *.
  destruct (String.eqb_spec (Method r) "POST") as [Hpost|Hother]; simpl.
  2:{ intros [= <- <-]. rewrite Herror. intuition congruence. }
  destruct (snd (Body r)) as [read_err|] eqn:Hread.
  { intros [= <- <-]. rewrite Herror. intuition congruence. }
  destruct (json.Unmarshal (fst (Body r)) zero_SaveRequest) as [req [decode_err|]] eqn:Hdecode;
    simpl.
  { intros [= <- <-]. rewrite Herror. intuition congruence. }
  destruct (DataService.SaveData (dataService h) req world) as [[[err|]|msg] world1] eqn:Hsave;
    simpl; [| |discriminate].
  - intros [= <- <-]. rewrite Herror. intuition congruence.
  - intros [= <- <-]. rewrite Hsuccess. intuition congruence.
Qed.

Lemma HandleSaveData_status_witness :
  rw_status NewRecorder = None ∧
  HTTPHandler.HandleSaveData (handler the_server) NewRecorder
    (request "POST" (save_body "SGVsbG8=" "file")) running_world
  = (Ok (success_response NewRecorder), file_saved "data.txt" "Hello" running_world) ∧
  rw_status (success_response NewRecorder) = Some StatusOK.
Proof.
  assert (HTTPHandler.HandleSaveData (handler the_server) NewRecorder
            (request "POST" (save_body "SGVsbG8=" "file")) running_world
          = (Ok (success_response NewRecorder), file_saved "data.txt" "Hello" running_world))
    as Hrun by (by vm_compute).
  split; [reflexivity|]. split; [exact Hrun|].
  destruct (HandleSaveData_status (handler the_server) NewRecorder
              (request "POST" (save_body "SGVsbG8=" "file")) running_world
              (file_saved "data.txt" "Hello" running_world) (success_response NewRecorder)
              eq_refl Hrun) as (_ & _ & Hok & _).
  apply Hok. repeat split; by vm_compute.
Defined.

Lemma SaveData_ok_inv (ds : DataService) (req : SaveRequest) (w w' : World) :
  DataService.SaveData ds req w = (Ok None, w') →
  Data req ≠ EmptyString ∧ recognized (StorageType req) ∧
  persisted ds w w' (Data req) (StorageType req).
Proof.
  intros Hsave.
  destruct (decide (Data req ≠ EmptyString ∧
                    (StorageType req = "file" ∨ StorageType req = "database")))
    as [[Hdata [Hfile|Hdb]]|Hbad].
  - rewrite SaveData_file in Hsave by done. unfold bind in Hsave.
    rewrite FileStorage_Save_eq in Hsave. simpl in Hsave.
    split; [done|]. split; [apply recognized_cases; by left|].
    assert (w' = file_saved "data.txt" (Data req) w) as ->.
    { destruct (create_fault w !! "data.txt"); [discriminate|].
      destruct (writes_in_full w "data.txt" (Data req)); [by injection Hsave|].
      destruct (write_fault w !! "data.txt") as [[room reason]|];
        [discriminate|by injection Hsave]. }
    split; [intros _; simpl; apply lookup_insert_eq|]. intros Hkind. congruence.
  - rewrite SaveData_database in Hsave by done.
    split; [done|]. split; [apply recognized_cases; by right|].
    destruct (database (factory ds)) as [l|] eqn:Hl; [|discriminate].
    unfold bind in Hsave.
    destruct (DatabaseConnection_Save_cases (Some l) (Data req) w)
      as [(msg & Heq & _)|[(l' & c & _ & _ & _ & Heq)|(l' & c & [= <-] & Hc & _ & Heq)]];
      rewrite Heq in Hsave; try discriminate.
    injection Hsave as <-.
    split; [intros Hkind; congruence|]. intros _. by exists l, c.
  - destruct (SaveData_invalid ds req w Hbad) as (err & _ & Heq). congruence.
Qed.

(** X12.  The refactored handler sends 200 only after the payload has been
    persisted: whenever its status is 200, the body decoded to a request with
    a non-empty payload and a recognized kind, and the world it leaves holds
    the payload, byte for byte (in [data.txt], or handed to the connection's
    write primitive); the response then carries the JSON content type and
    the JSON success body. *)
Theorem HandleSaveData_OK_means_persisted
  (h : HTTPHandler) (w : ResponseWriter) (r : Request) (world world' : World)
  (response : ResponseWriter) :
  rw_status w = None →
  HTTPHandler.HandleSaveData h w r world = (Ok response, world') →
  rw_status response = Some StatusOK →
  ∃ req,
    json.Unmarshal (fst (Body r)) zero_SaveRequest = (req, None) ∧
    Data req ≠ EmptyString ∧
    recognized (StorageType req) ∧
    persisted (dataService h) world world' (Data req) (StorageType req) ∧
    rw_header response !! "Content-Type" = Some "application/json" ∧
    rw_body response = rw_body w +:+ success_body.
Proof.
  intros Hfresh Hrun Hok. rewrite HandleSaveData_eq in Hrun.
  assert (∀ text code, code ≠ StatusOK →
            rw_status (http_Error w text code) ≠ Some StatusOK) as Herror.
  { intros text code Hcode. rewrite http_Error_status by done. congruence. }
  destruct (negb (String.eqb (Method r) MethodPost)).
  { injection Hrun as <- <-. by destruct (Herror "Method not allowed" StatusMethodNotAllowed). }
  destruct (snd (Body r)).
  { injection Hrun as <- <-. by destruct (Herror "Failed to read body" StatusBadRequest). }
  destruct (json.Unmarshal (fst (Body r)) zero_SaveRequest) as [req [decode_err|]].
  { injection Hrun as <- <-. by destruct (Herror "Invalid JSON format" StatusBadRequest). }
  destruct (DataService.SaveData (dataService h) req world) as [[[err|]|msg] world1] eqn:Hsave;
    [| |discriminate].
  { injection Hrun as <- <-. by destruct (Herror (Error err) StatusInternalServerError). }
  injection Hrun as <- <-. exists req. split; [reflexivity|].
  destruct (SaveData_ok_inv _ _ _ _ Hsave) as (Hdata & Hkind & Hpersisted).
  split; [exact Hdata|]. split; [exact Hkind|]. split; [exact Hpersisted|].
  split.
  - unfold success_response, Encode, Body_Write, WriteHeader. simpl. rewrite Hfresh. simpl.
    apply lookup_insert_eq.
  - unfold success_response, Encode, Body_Write. simpl. by rewrite !WriteHeader_body.
Qed.

Lemma HandleSaveData_OK_means_persisted_witness :
  rw_status NewRecorder = None ∧
  HTTPHandler.HandleSaveData (handler the_server) NewRecorder
    (request "POST" (save_body "SGVsbG8=" "database")) running_world
  = (Ok (success_response NewRecorder),
     set_stdout (λ out, out ++ [saving_line the_connection "Hello"]) running_world) ∧
  rw_status (success_response NewRecorder) = Some StatusOK ∧
  ∃ req,
    json.Unmarshal (fst (Body (request "POST" (save_body "SGVsbG8=" "database"))))
      zero_SaveRequest = (req, None) ∧
    Data req ≠ EmptyString ∧
    recognized (StorageType req) ∧
    persisted (dataService (handler the_server)) running_world
      (set_stdout (λ out, out ++ [saving_line the_connection "Hello"]) running_world)
      (Data req) (StorageType req) ∧
    rw_header (success_response NewRecorder) !! "Content-Type" = Some "application/json" ∧
    rw_body (success_response NewRecorder) = rw_body NewRecorder +:+ success_body.
Proof.
  assert (HTTPHandler.HandleSaveData (handler the_server) NewRecorder
            (request "POST" (save_body "SGVsbG8=" "database")) running_world
          = (Ok (success_response NewRecorder),
             set_stdout (λ out, out ++ [saving_line the_connection "Hello"]) running_world))
    as Hrun by (by vm_compute).
  split; [reflexivity|]. split; [exact Hrun|]. split; [reflexivity|].
  apply (HandleSaveData_OK_means_persisted (handler the_server) NewRecorder
           (request "POST" (save_body "SGVsbG8=" "database")) running_world _ _
           eq_refl Hrun eq_refl).
Defined.

(** ** Startup and shutdown, under any configuration *)

Lemma NewAPIServer_eq (cfg : Configuration) (w : World) :
  NewAPIServer cfg w
  = (Ok (Some (mkAPIServer cfg
                 (NewHTTPHandler (NewDataService
                                    (NewStorageFactory (Some (fresh (dom (heap w)))))
                                    NewRequestValidator))
                 (Some (fresh (dom (heap w))))), None),
     snd (NewDatabaseConnection (DatabaseHost cfg) (DatabasePort cfg) (DatabaseUser cfg)
            (DatabasePass cfg) (DatabaseName cfg) w)).
Proof. reflexivity. Qed.

(** X13.  Building the server never fails and wires one connection through
    every layer: the pointer the server keeps for shutdown is the one its
    handler's service hands to database storages; it points to a location
    that was unused, where a connected connection built from the
    configuration now lives; the connections that existed and the files are
    left as they were. *)
Theorem NewAPIServer_wiring (cfg : Configuration) (w : World) :
  ∃ s l c w',
    NewAPIServer cfg w = (Ok (Some s, None), w') ∧
    config s = cfg ∧
    srv_database s = Some l ∧
    database (factory (dataService (handler s))) = Some l ∧
    heap w !! l = None ∧
    heap w' !! l = Some c ∧
    started_with c cfg ∧
    (∀ l', l' ≠ l → heap w' !! l' = heap w !! l') ∧
    files w' = files w.
Proof.
  eexists. exists (fresh (dom (heap w))). eexists. eexists.
  split; [apply NewAPIServer_eq|].
  split; [reflexivity|]. split; [reflexivity|]. split; [reflexivity|].
  split; [apply fresh_location_unused|].
  split; [simpl; apply lookup_insert_eq|].
  split; [reflexivity|].
  split; [|reflexivity].
  intros l' Hne. simpl. by rewrite lookup_insert_ne.
Qed.

(** X14.  After shutdown the server refuses database saves and nothing else:
    under any configuration and from any world, once [NewAPIServer] and then
    [Shutdown] have returned (both without error), every POST that decodes to
    a non-empty payload for [database] is answered 500 with the text
    [failed to save data: database connection not established] and changes
    nothing, while a POST for [file] is still saved and answered 200 whenever
    [data.txt] can be created and written in full. *)
Theorem Shutdown_stops_database_saves (cfg : Configuration) (w : World) :
  ∃ s w1 w2,
    NewAPIServer cfg w = (Ok (Some s, None), w1) ∧
    APIServer.Shutdown s w1 = (Ok None, w2) ∧
    (∀ body req,
       json.Unmarshal body zero_SaveRequest = (req, None) →
       Data req ≠ EmptyString → StorageType req = "database" →
       answers (handler s) w2 (request "POST" body) StatusInternalServerError
         ("failed to save data: database connection not established" +:+ nl) w2) ∧
    (∀ body req,
       json.Unmarshal body zero_SaveRequest = (req, None) →
       Data req ≠ EmptyString → StorageType req = "file" →
       create_fault w !! "data.txt" = None →
       writes_in_full w "data.txt" (Data req) = true →
       ∃ w3, answers (handler s) w2 (request "POST" body) StatusOK success_body w3 ∧
             files w3 !! "data.txt" = Some (Data req)).
Proof.
  set (l := fresh (dom (heap w))).
  set (c := mkDatabaseConnection (DatabaseHost cfg) (DatabasePort cfg) (DatabaseUser cfg)
              (DatabasePass cfg) (DatabaseName cfg) true).
  set (w1 := snd (NewDatabaseConnection (DatabaseHost cfg) (DatabasePort cfg)
                    (DatabaseUser cfg) (DatabasePass cfg) (DatabaseName cfg) w)).
  assert (heap w1 !! l = Some c) as Hl1 by (simpl; apply lookup_insert_eq).
  set (w1' := set_stdout (λ out, out ++ ["Shutting down server..." +:+ nl]) w1).
  assert (heap w1' !! l = Some c) as Hl1' by exact Hl1.
  pose proof (DatabaseConnection_Close_eq l c w1' Hl1') as Hclose.
  set (w2 := set_heap (insert l (disconnect c))
               (set_stdout (λ out, out ++ ["Closing database connection to "
                                            +:+ DBName c +:+ nl]) w1')) in *.
  assert (heap w2 !! l = Some (disconnect c)) as Hl2 by (simpl; apply lookup_insert_eq).
  eexists. exists w1, w2.
  split; [apply NewAPIServer_eq|].
  split.
  { unfold APIServer.Shutdown, Println, Printf, bind. simpl. exact Hclose. }
  split.
  - intros body req Hdecode Hdata Hkind. eexists.
    rewrite (HandleSaveData_decoded _ _ body req) by done. unfold bind.
    rewrite SaveData_database by done. simpl. unfold bind.
    rewrite (DatabaseConnection_Save_eq l (disconnect c)) by exact Hl2. simpl.
    split; [reflexivity|]. split; reflexivity.
  - intros body req Hdecode Hdata Hkind Hcreate Hfull. eexists. split.
    + eexists. rewrite (HandleSaveData_decoded _ _ body req) by done. unfold bind.
      rewrite SaveData_file by done. unfold bind. rewrite FileStorage_Save_eq. simpl.
      change (create_fault w2 !! "data.txt") with (create_fault w !! "data.txt").
      change (writes_in_full w2 "data.txt" (Data req))
        with (writes_in_full w "data.txt" (Data req)).
      rewrite Hcreate, Hfull. simpl.
      split; [reflexivity|]. split; reflexivity.
    + simpl. apply lookup_insert_eq.
Qed.

(** ** The original program *)

Lemma Original_SaveData_eq (kind : string) (data : bytes) (w : World) :
  Original.DataStorage.SaveData (Original.mkDataStorage kind) data w =
  if String.eqb kind "file" then
    match create_fault w !! "data.txt" with
    | Some reason => (Ok (Some (PathError "open" "data.txt" reason)), w)
    | None => (Ok None, file_saved "data.txt" (written w "data.txt" data) w)
    end
  else if String.eqb kind "database" then
    (Ok None,
     set_stdout (λ out, out ++ [establishing;
                                "Saving data to database app_database: " +:+ data +:+ nl]) w)
  else (Ok (Some (errorString ("unsupported storage type: " +:+ kind))), w).
Proof.
  unfold Original.DataStorage.SaveData. simpl.
  destruct (String.eqb kind "file").
  - unfold bind, Create, File_Write, Println, Printf, ret, file_saved, written. simpl.
    destruct (create_fault w !! "data.txt") as [reason|]; [reflexivity|].
    simpl. rewrite lookup_insert_eq. simpl.
    destruct (write_fault w !! "data.txt") as [[room reason]|]; simpl.
    + destruct (decide (String.length data ≤ room)) as [Hle|Hgt]; simpl.
      * apply Nat.leb_le in Hle. rewrite Hle. unfold set_files. simpl.
        by rewrite insert_insert_eq.
      * apply Nat.leb_nle in Hgt. rewrite Hgt. unfold set_files. simpl.
        by rewrite insert_insert_eq.
    + unfold set_files. simpl. by rewrite insert_insert_eq.
  - destruct (String.eqb kind "database"); [|reflexivity].
    unfold bind, Original.NewDatabase, Original.Database.Save, Printf, ret, set_stdout. simpl.
    by rewrite <- app_assoc.
Qed.

Lemma Original_HandleSaveData_eq (w : ResponseWriter) (r : Request) (world : World) :
  Original.DataHandler.HandleSaveData w r world =
  match snd (Body r) with
  | Some _ => (Ok (http_Error w "Failed to read body" StatusBadRequest), world)
  | None =>
    match json.Unmarshal (fst (Body r)) zero_SaveRequest with
    | (_, Some _) => (Ok (http_Error w "Invalid JSON" StatusBadRequest), world)
    | (req, None) =>
      match Original.DataStorage.SaveData (Original.mkDataStorage (StorageType req))
              (Data req) world with
      | (Ok (Some err), world') =>
        (Ok (http_Error w (Error err) StatusInternalServerError), world')
      | (Ok None, world') =>
        (Ok (Body_Write "Data saved successfully" (WriteHeader StatusOK w)), world')
      | (Panic msg, world') => (Panic msg, world')
      end
    end
  end.
Proof.
  unfold Original.DataHandler.HandleSaveData, ReadAll.
  destruct (Body r) as [body [read_err|]]; simpl; [reflexivity|].
  destruct (json.Unmarshal body zero_SaveRequest) as [[data kind] [decode_err|]];
    [reflexivity|].
  unfold bind. simpl.
  by destruct (Original.DataStorage.SaveData (Original.mkDataStorage kind) data world)
    as [[[err|]|msg] world'].
Qed.

(** X15.  The original program does not report a failed write: when
    [data.txt] is created but the write stops short, its [SaveData] still
    returns no error and prints the success line, its handler still answers
    [Data saved successfully], and the file is left holding only the bytes
    that were written. *)
Theorem Original_swallows_write_error
  (w : ResponseWriter) (method : string) (body : bytes) (req : SaveRequest)
  (room : nat) (reason : string) (world : World) :
  json.Unmarshal body zero_SaveRequest = (req, None) →
  StorageType req = "file" →
  create_fault world !! "data.txt" = None →
  write_fault world !! "data.txt" = Some (room, reason) →
  room < String.length (Data req) →
  ∃ response world',
    Original.DataStorage.SaveData (Original.mkDataStorage "file") (Data req) world
      = (Ok None, world') ∧
    Original.DataHandler.HandleSaveData w (mkRequest method (body, None)) world
      = (Ok response, world') ∧
    rw_body response = rw_body w +:+ "Data saved successfully" ∧
    (rw_status w = None → rw_status response = Some StatusOK) ∧
    files world' !! "data.txt" = Some (String.substring 0 room (Data req)) ∧
    stdout world' = stdout world ++ ["Data saved to file" +:+ nl].
Proof.
  intros Hdecode Hkind Hcreate Hfault Hshort.
  assert (written world "data.txt" (Data req) = String.substring 0 room (Data req)) as Hpart.
  { unfold written. rewrite Hfault.
    assert ((String.length (Data req) <=? room) = false) as -> by (apply Nat.leb_gt; lia).
    reflexivity. }
  eexists. eexists.
  rewrite Original_HandleSaveData_eq. simpl. rewrite Hdecode, Hkind.
  rewrite Original_SaveData_eq. simpl. rewrite Hcreate.
  split; [reflexivity|]. split; [reflexivity|].
  split; [unfold Body_Write; simpl; by rewrite !WriteHeader_body|].
  split; [intros Hfresh; unfold Body_Write, WriteHeader; simpl; by rewrite Hfresh|].
  split; [simpl; rewrite lookup_insert_eq; by rewrite Hpart|reflexivity].
Qed.

Lemma Original_swallows_write_error_witness :
  let world := mkWorld ∅ ∅ {[ "data.txt" := (2, "no space left on device") ]} [] ∅ in
  json.Unmarshal (save_body "SGVsbG8=" "file") zero_SaveRequest
    = (mkSaveRequest "Hello" "file", None) ∧
  2 < String.length "Hello" ∧
  ∃ response world',
    Original.DataStorage.SaveData (Original.mkDataStorage "file") "Hello" world
      = (Ok None, world') ∧
    Original.DataHandler.HandleSaveData NewRecorder
      (mkRequest "POST" (save_body "SGVsbG8=" "file", None)) world = (Ok response, world') ∧
    rw_body response = rw_body NewRecorder +:+ "Data saved successfully" ∧
    (rw_status NewRecorder = None → rw_status response = Some StatusOK) ∧
    files world' !! "data.txt" = Some (String.substring 0 2 "Hello") ∧
    stdout world' = stdout world ++ ["Data saved to file" +:+ nl].
Proof.
  split; [by vm_compute|]. split; [simpl; lia|].
  apply (Original_swallows_write_error NewRecorder "POST" (save_body "SGVsbG8=" "file")
           (mkSaveRequest "Hello" "file") 2 "no space left on device");
    [by vm_compute|reflexivity|reflexivity|reflexivity|simpl; lia].
Defined.

Lemma written_in_full (w : World) (path : string) (data : bytes) :
  writes_in_full w path data = true → written w path data = data.
Proof.
  unfold writes_in_full, written.
  destruct (write_fault w !! path) as [[room reason]|]; [|done]. by intros ->.
Qed.

(** X16.  The original program validates nothing: a request with an empty
    payload for [file] is served by it, whatever the method, and leaves
    [data.txt] empty, so that what the file held is lost; the refactored
    handler rejects the same body with the validator's detail and leaves the
    world as it was. *)
Theorem Original_accepts_empty_payload
  (h : HTTPHandler) (w : ResponseWriter) (method : string) (body : bytes) (req : SaveRequest)
  (world : World) :
  json.Unmarshal body zero_SaveRequest = (req, None) →
  Data req = EmptyString →
  StorageType req = "file" →
  create_fault world !! "data.txt" = None →
  (∃ response world',
     Original.DataHandler.HandleSaveData w (mkRequest method (body, None)) world
       = (Ok response, world') ∧
     rw_body response = rw_body w +:+ "Data saved successfully" ∧
     files world' !! "data.txt" = Some EmptyString) ∧
  HTTPHandler.HandleSaveData h w (request "POST" body) world
    = (Ok (http_Error w "validation failed: data cannot be empty" StatusInternalServerError),
       world).
Proof.
  intros Hdecode Hdata Hkind Hcreate. split.
  - eexists. eexists. rewrite Original_HandleSaveData_eq. simpl. rewrite Hdecode, Hkind.
    rewrite Original_SaveData_eq. simpl. rewrite Hcreate.
    split; [reflexivity|].
    split; [unfold Body_Write; simpl; by rewrite !WriteHeader_body|].
    simpl. rewrite lookup_insert_eq, Hdata. f_equal. apply written_in_full.
    unfold writes_in_full. by destruct (write_fault world !! "data.txt") as [[room reason]|].
  - apply (HandleSaveData_validation_failure h w body req (errorString "data cannot be empty"));
      [done|].
    unfold RequestValidator.ValidateRequest. by rewrite Hdata.
Qed.

Lemma Original_accepts_empty_payload_witness :
  let world := mkWorld {[ "data.txt" := "precious" ]} ∅ ∅ [] ∅ in
  json.Unmarshal (save_body EmptyString "file") zero_SaveRequest
    = (mkSaveRequest EmptyString "file", None) ∧
  create_fault world !! "data.txt" = None ∧
  files world !! "data.txt" = Some "precious" ∧
  (∃ response world',
     Original.DataHandler.HandleSaveData NewRecorder
       (mkRequest "GET" (save_body EmptyString "file", None)) world = (Ok response, world') ∧
     rw_body response = rw_body NewRecorder +:+ "Data saved successfully" ∧
     files world' !! "data.txt" = Some EmptyString) ∧
  HTTPHandler.HandleSaveData (handler the_server) NewRecorder
    (request "POST" (save_body EmptyString "file")) world
    = (Ok (http_Error NewRecorder "validation failed: data cannot be empty"
             StatusInternalServerError), world).
Proof.
  split; [by vm_compute|]. split; [reflexivity|]. split; [reflexivity|].
  apply (Original_accepts_empty_payload (handler the_server) NewRecorder "GET"
           (save_body EmptyString "file") (mkSaveRequest EmptyString "file"));
    [by vm_compute|reflexivity|reflexivity|reflexivity].
Defined.

(** X17.  On file saves the refactoring changes nothing a client can rely
    on: for a POST that decodes to a non-empty payload for [file], when a
    write goes through in full, the original and the refactored handler leave
    the same world (the same [data.txt], the same output) and send the same
    status, 200 when the file can be created and 500 when it cannot. *)
Theorem handlers_agree_on_file_saves
  (h : HTTPHandler) (w : ResponseWriter) (body : bytes) (req : SaveRequest) (world : World) :
  json.Unmarshal body zero_SaveRequest = (req, None) →
  Data req ≠ EmptyString →
  StorageType req = "file" →
  writes_in_full world "data.txt" (Data req) = true →
  rw_status w = None →
  ∃ original refactored world',
    Original.DataHandler.HandleSaveData w (request "POST" body) world
      = (Ok original, world') ∧
    HTTPHandler.HandleSaveData h w (request "POST" body) world = (Ok refactored, world') ∧
    rw_status original = rw_status refactored ∧
    (rw_status original = Some StatusOK ↔ create_fault world !! "data.txt" = None) ∧
    (rw_status original = Some StatusInternalServerError
     ↔ create_fault world !! "data.txt" ≠ None).
Proof.
  intros Hdecode Hdata Hkind Hfull Hfresh.
  rewrite Original_HandleSaveData_eq, HandleSaveData_eq. simpl.
  rewrite Hdecode, Hkind, Original_SaveData_eq, SaveData_file by done. simpl.
  unfold bind. rewrite FileStorage_Save_eq. simpl.
  rewrite Hfull, (written_in_full _ _ _ Hfull).
  destruct (create_fault world !! "data.txt") as [reason|]; simpl.
  - eexists. eexists. eexists. split; [reflexivity|]. split; [reflexivity|].
    rewrite !http_Error_status by done.
    unfold StatusOK, StatusInternalServerError. intuition congruence.
  - eexists. eexists. eexists. split; [reflexivity|]. split; [reflexivity|].
    assert (rw_status (Body_Write "Data saved successfully" (WriteHeader StatusOK w))
            = Some StatusOK) as ->.
    { unfold Body_Write, WriteHeader. simpl. by rewrite Hfresh. }
    assert (rw_status (success_response w) = Some StatusOK) as ->.
    { unfold success_response, Encode, Body_Write, WriteHeader. simpl. by rewrite Hfresh. }
    unfold StatusOK, StatusInternalServerError. intuition congruence.
Qed.

Lemma handlers_agree_on_file_saves_witness :
  json.Unmarshal (save_body "SGVsbG8=" "file") zero_SaveRequest
    = (mkSaveRequest "Hello" "file", None) ∧
  writes_in_full running_world "data.txt" "Hello" = true ∧
  ∃ original refactored world',
    Original.DataHandler.HandleSaveData NewRecorder
      (request "POST" (save_body "SGVsbG8=" "file")) running_world = (Ok original, world') ∧
    HTTPHandler.HandleSaveData (handler the_server) NewRecorder
      (request "POST" (save_body "SGVsbG8=" "file")) running_world
      = (Ok refactored, world') ∧
    rw_status original = rw_status refactored ∧
    (rw_status original = Some StatusOK ↔ create_fault running_world !! "data.txt" = None) ∧
    (rw_status original = Some StatusInternalServerError
     ↔ create_fault running_world !! "data.txt" ≠ None).
Proof.
  split; [by vm_compute|]. split; [reflexivity|].
  apply (handlers_agree_on_file_saves (handler the_server) NewRecorder
           (save_body "SGVsbG8=" "file") (mkSaveRequest "Hello" "file") running_world);
    [by vm_compute|discriminate|reflexivity|reflexivity|reflexivity].
Defined.

(** ** One connection for the process, or one for every request *)








(** X19.  The status the original handler sends on a fresh response writer:
    never 405; 400 exactly when the body cannot be read or does not decode;
    200 exactly when the body decodes to a request for [database], or for
    [file] with [data.txt] creatable, whatever the payload; and 500 exactly
    when it decodes to a request for any other kind, the empty one included,
    or for [file] with [data.txt] not creatable. *)
Theorem Original_HandleSaveData_status
  (w : ResponseWriter) (r : Request) (world world' : World) (response : ResponseWriter) :
  rw_status w = None →
  Original.DataHandler.HandleSaveData w r world = (Ok response, world') →
  rw_status response ≠ Some StatusMethodNotAllowed ∧
  (rw_status response = Some StatusBadRequest
   ↔ snd (Body r) ≠ None ∨ snd (json.Unmarshal (fst (Body r)) zero_SaveRequest) ≠ None) ∧
  (rw_status response = Some StatusOK
   ↔ snd (Body r) = None ∧ snd (json.Unmarshal (fst (Body r)) zero_SaveRequest) = None ∧
     (StorageType (fst (json.Unmarshal (fst (Body r)) zero_SaveRequest)) = "database" ∨
      (StorageType (fst (json.Unmarshal (fst (Body r)) zero_SaveRequest)) = "file" ∧
       create_fault world !! "data.txt" = None))) ∧
  (rw_status response = Some StatusInternalServerError
   ↔ snd (Body r) = None ∧ snd (json.Unmarshal (fst (Body r)) zero_SaveRequest) = None ∧
     ((StorageType (fst (json.Unmarshal (fst (Body r)) zero_SaveRequest)) ≠ "file" ∧
       StorageType (fst (json.Unmarshal (fst (Body r)) zero_SaveRequest)) ≠ "database") ∨
      (StorageType (fst (json.Unmarshal (fst (Body r)) zero_SaveRequest)) = "file" ∧
       create_fault world !! "data.txt" ≠ None))).
Proof.
  intros Hfresh. rewrite Original_HandleSaveData_eq.
  assert (∀ text code, rw_status (http_Error w text code) = Some code) as Herror.
  { intros text code. by apply http_Error_status. }
  assert (rw_status (Body_Write "Data saved successfully" (WriteHeader StatusOK w))
          = Some StatusOK) as Hsuccess.
  { unfold Body_Write, WriteHeader. simpl. by rewrite Hfresh. }
  unfold StatusMethodNotAllowed, StatusBadRequest, StatusOK, StatusInternalServerError in *.
  destruct (snd (Body r)) as [read_err|].
  { intros [= <- <-]. rewrite Herror. intuition congruence. }
  destruct (json.Unmarshal (fst (Body r)) zero_SaveRequest) as [req [decode_err|]]; simpl.
  { intros [= <- <-]. rewrite Herror. intuition congruence. }
  rewrite Original_SaveData_eq.
  destruct (String.eqb_spec (StorageType req) "file") as [Hfile|Hfile].
  { destruct (create_fault world !! "data.txt") as [reason|].
    - intros [= <- <-]. rewrite Herror. rewrite Hfile. intuition congruence.
    - intros [= <- <-]. rewrite Hsuccess. rewrite Hfile. intuition congruence. }
  destruct (String.eqb_spec (StorageType req) "database") as [Hdb|Hdb].
  - intros [= <- <-]. rewrite Hsuccess. rewrite Hdb. intuition congruence.
  - intros [= <- <-]. rewrite Herror. intuition congruence.
Qed.

Lemma Original_HandleSaveData_status_witness :
  rw_status NewRecorder = None ∧
  Original.DataHandler.HandleSaveData NewRecorder
    (request "DELETE" (save_body "SGVsbG8=" "redis")) running_world
  = (Ok (http_Error NewRecorder "unsupported storage type: redis" StatusInternalServerError),
     running_world) ∧
  rw_status (http_Error NewRecorder "unsupported storage type: redis"
               StatusInternalServerError) ≠ Some StatusMethodNotAllowed.
Proof.
  assert (Original.DataHandler.HandleSaveData NewRecorder
            (request "DELETE" (save_body "SGVsbG8=" "redis")) running_world
          = (Ok (http_Error NewRecorder "unsupported storage type: redis"
                   StatusInternalServerError), running_world)) as Hrun by (by vm_compute).
  split; [reflexivity|]. split; [exact Hrun|].
  apply (Original_HandleSaveData_status NewRecorder
           (request "DELETE" (save_body "SGVsbG8=" "redis")) running_world running_world
           _ eq_refl Hrun).
Defined.

(** ** The end of the process *)

(** X20.  [main] never shuts the server down: [ListenAndServe] ends only
    with an error, [main] answers that error with [log.Fatal], and the exit
    skips the deferred [Shutdown].  Under any such [ListenAndServe] the
    process exits with status 1 in exactly the world serving left: after
    serving stops nothing is printed and the connection is not closed. *)
Theorem main_never_shuts_down
  (ListenAndServe : string → (string → option HandlerFunc) → M (option error)) (w : World) :
  (∀ addr mux w1, ∃ err w2, ListenAndServe addr mux w1 = (Ok (Some err), w2)) →
  ∃ s w1 err w2,
    NewAPIServer NewConfiguration w = (Ok (Some s, None), w1) ∧
    ListenAndServe ":8080" (routes s)
      (set_stdout (λ out, out ++ ["Server starting on :8080" +:+ nl]) w1)
      = (Ok (Some err), w2) ∧
    main ListenAndServe w = (Ok (Exits 1), w2) ∧
    (∀ l c, srv_database s = Some l → heap w2 !! l = Some c →
            heap (snd (main ListenAndServe w)) !! l = Some c) ∧
    stdout (snd (main ListenAndServe w)) = stdout w2.
Proof.
  intros Hserve.
  set (s := mkAPIServer NewConfiguration
              (NewHTTPHandler (NewDataService
                                 (NewStorageFactory (Some (fresh (dom (heap w)))))
                                 NewRequestValidator))
              (Some (fresh (dom (heap w))))).
  set (w1 := snd (NewDatabaseConnection "localhost" 5432 "admin" "password123"
                    "app_database" w)).
  destruct (Hserve ":8080" (routes s)
              (set_stdout (λ out, out ++ ["Server starting on :8080" +:+ nl]) w1))
    as (err & w2 & Hlisten).
  assert (main ListenAndServe w
          = match ListenAndServe ":8080" (routes s)
                    (set_stdout (λ out, out ++ ["Server starting on :8080" +:+ nl]) w1) with
            | (Ok (Some _), w2) => (Ok (Exits 1), w2)
            | (Ok None, w2) => (deferred_Shutdown (Some s) ;; ret Returns) w2
            | (Panic msg, w2) =>
              match deferred_Shutdown (Some s) w2 with
              | (Ok _, w3) => (Panic msg, w3)
              | (Panic msg', w3) => (Panic msg', w3)
              end
            end) as Hunfold by reflexivity.
  assert (main ListenAndServe w = (Ok (Exits 1), w2)) as Hmain.
  { rewrite Hunfold. by rewrite Hlisten. }
  exists s, w1, err, w2.
  split; [apply NewAPIServer_eq|]. split; [exact Hlisten|]. split; [exact Hmain|].
  rewrite Hmain. split; [by intros l c _ Hc|reflexivity].
Qed.

Lemma main_never_shuts_down_witness :
  let busy : string → (string → option HandlerFunc) → M (option error) :=
    λ addr _, ret (Some (errorString ("listen tcp " +:+ addr
                                      +:+ ": bind: address already in use"))) in
  (∀ addr mux w1, ∃ err w2, busy addr mux w1 = (Ok (Some err), w2)) ∧
  ∃ s w1 err w2,
    NewAPIServer NewConfiguration empty_world = (Ok (Some s, None), w1) ∧
    busy ":8080" (routes s)
      (set_stdout (λ out, out ++ ["Server starting on :8080" +:+ nl]) w1)
      = (Ok (Some err), w2) ∧
    main busy empty_world = (Ok (Exits 1), w2) ∧
    (∀ l c, srv_database s = Some l → heap w2 !! l = Some c →
            heap (snd (main busy empty_world)) !! l = Some c) ∧
    stdout (snd (main busy empty_world)) = stdout w2.
Proof.
  intros busy.
  assert (∀ addr mux w1, ∃ err w2, busy addr mux w1 = (Ok (Some err), w2)) as Hbusy.
  { intros addr mux w1. eexists. eexists. reflexivity. }
  split; [exact Hbusy|].
  apply (main_never_shuts_down busy empty_world Hbusy).
Defined.

(** ** An error's way to the client *)

(** X21.  A failure of the file system reaches the client in full: when
    [data.txt] cannot be created, a POST that decodes to a non-empty payload
    for [file] is answered 500, the body is the system's error under the
    prefixes of the strategy and of the service,
    [failed to save data: failed to create file: open data.txt: <reason>],
    and the world is left as it was. *)
Theorem create_failure_reaches_client
  (h : HTTPHandler) (w : ResponseWriter) (body : bytes) (req : SaveRequest) (reason : string)
  (world : World) :
  json.Unmarshal body zero_SaveRequest = (req, None) →
  Data req ≠ EmptyString →
  StorageType req = "file" →
  create_fault world !! "data.txt" = Some reason →
  rw_status w = None →
  ∃ response,
    HTTPHandler.HandleSaveData h w (request "POST" body) world = (Ok response, world) ∧
    rw_status response = Some StatusInternalServerError ∧
    rw_body response
      = rw_body w +:+ "failed to save data: failed to create file: open data.txt: "
        +:+ reason +:+ nl.
Proof.
  intros Hdecode Hdata Hkind Hcreate Hfresh. eexists.
  rewrite HandleSaveData_eq. simpl. rewrite Hdecode.
  rewrite SaveData_file by done. unfold bind. rewrite FileStorage_Save_eq. simpl.
  rewrite Hcreate. simpl.
  split; [reflexivity|]. split; [by apply http_Error_status|].
  by rewrite http_Error_body.
Qed.

Lemma create_failure_reaches_client_witness :
  let world := mkWorld ∅ {[ "data.txt" := "permission denied" ]} ∅ [] ∅ in
  json.Unmarshal (save_body "SGVsbG8=" "file") zero_SaveRequest
    = (mkSaveRequest "Hello" "file", None) ∧
  create_fault world !! "data.txt" = Some "permission denied" ∧
  ∃ response,
    HTTPHandler.HandleSaveData (handler the_server) NewRecorder
      (request "POST" (save_body "SGVsbG8=" "file")) world = (Ok response, world) ∧
    rw_status response = Some StatusInternalServerError ∧
    rw_body response
      = rw_body NewRecorder +:+ "failed to save data: failed to create file: open data.txt: "
        +:+ "permission denied" +:+ nl.
Proof.
  split; [by vm_compute|]. split; [reflexivity|].
  apply (create_failure_reaches_client (handler the_server) NewRecorder
           (save_body "SGVsbG8=" "file") (mkSaveRequest "Hello" "file") "permission denied");
    [by vm_compute|discriminate|reflexivity|reflexivity|reflexivity].
Defined.
